(** * The active stream of the proxy (pkg/proxy/downstream.go)

    A shallow embedding of the per-request state machine: one downstream
    request/response cycle bound to successive upstream attempts, with
    its two timers, its retry gate and its terminal cleanup.

    Go pointers that the code tests against nil are [option]s; a
    dereference of a nil pointer is the outcome [Panic].  Calls that leave
    downstream.go (upstream request, codecs, timers, filters, access
    logs) are recorded, in order, in the [trace] of the stream. *)

From Stdlib Require Import ZArith Lia.
From stdpp Require Import base list gmap strings pretty.

(** ** Constants of package types and protocol

    The declarations of these constants are outside the sources at hand,
    so the development is parametric in their values. *)

Record TypesConsts := mkTypesConsts {
  HeaderStatus : string;
  CodecException : string;
  DeserializeException : string;
  CodecExceptionCode : Z;
  DeserialExceptionCode : Z;
  UnknownCode : Z;
  RouterUnavailableCode : Z;
  NoHealthUpstreamCode : Z;
  TimeoutExceptionCode : Z;
  NoRouteFound : Z;
  NoHealthyUpstream : Z;
  UpstreamRequestTimeout : Z;
  UpstreamOverflow : Z;
  StreamLocalReset : string;
  SofaRpc : string;
  Http1 : string;
  Http2 : string
}.

(** The verdict of the retry gate. *)
Inductive RetryCheckStatus := ShouldRetry | NoRetry | RetryOverflow.

(** The kind of an upstream reset. *)
Inductive UpstreamResetType :=
  UpstreamReset | UpstreamGlobalTimeout | UpstreamPerTryTimeout.

(** Status returned by a filter callback. *)
Inductive FilterStatus := Continue | StopIteration | StopAndBuffer.

(** ** Data model *)

(** [ProxyTimeout], read by downstream.go through its two fields; both
    are [time.Duration], a signed 64-bit integer. *)
Record ProxyTimeout := mkProxyTimeout {
  GlobalTimeout : Z;
  TryTimeout : Z
}.

Definition wrap_int64 (x : Z) : Z := ((x + 2 ^ 63) mod 2 ^ 64 - 2 ^ 63)%Z.

(** [time.Second], in nanoseconds. *)
Definition Second : Z := 1000000000%Z.

(** Modelled from the spec: the timer type is not among the sources.  A
    timer handle stands for the callback and the duration the timer was
    created with. *)
Inductive timerCallback := onPerTryTimeoutCb | onResponseTimeoutCb.

Record timer := mkTimer {
  callback : timerCallback;
  duration : Z
}.

(** Modelled from the spec: a connection pool as handed out by the
    cluster manager, with the host it publishes through its callbacks. *)
Record ConnectionPool := mkPool {
  poolId : nat;
  poolHost : option string
}.

(** [upstreamRequest]: one attempt against an upstream host, with the
    fields that downstream.go sets or reads (the back references to the
    stream and to the proxy are left out). *)
Record UpstreamRequest := mkUpstreamRequest {
  connPool : ConnectionPool;
  requestEncoder : option nat;
  host : option string
}.

Definition set_requestEncoder (v : option nat) (r : UpstreamRequest) : UpstreamRequest :=
  {| connPool := connPool r; requestEncoder := v; host := host r |}.

(** Modelled from the spec: retrystate.go is not among the sources.  Of
    [retryState] downstream.go reads the field [retryOn] only.  The other
    fields carry what the spec says of the retry gate: a policy that says
    whether a response (headers) or a reset (reason) warrants a retry,
    the remaining budget, sticky overflow, and a pending back-off that
    will call [doRetry]. *)
Record RetryState := mkRetryState {
  retryOn : bool;
  retryPolicy : option (gmap string string) → string → bool;
  retriesRemaining : nat;
  overflowed : bool;
  backOffPending : bool
}.

Record ClusterInfo := mkClusterInfo {
  Name : string
}.

(** Modelled from the spec: routes are built outside the sources.  A
    route rule gives its cluster name, and what [parseProxyTimeout] and
    [newRetryState] build from its policy, the request headers and the
    cluster. *)
Record RouteRule := mkRouteRule {
  ClusterName : string;
  parseProxyTimeout : option (gmap string string) → ProxyTimeout;
  newRetryState : option (gmap string string) → option ClusterInfo → RetryState
}.

Record Route := mkRoute {
  routeRule : option RouteRule
}.

(** Modelled from the spec: [RequestInfo] is declared outside the
    sources.  Byte counters are uint64, response flags a bit-set. *)
Record RequestInfo := mkRequestInfo {
  BytesReceived : Z;
  BytesSent : Z;
  ResponseFlags : Z;
  RouteEntry : option RouteRule
}.

(** Modelled from the spec: filters are user code.  A stream filter,
    encoder or decoder side, is the status it returns for each kind of
    event.  Buffers are handled by address. *)
Record streamFilter := mkFilter {
  onHeaders : option (gmap string string) → bool → FilterStatus;
  onData : nat → bool → FilterStatus;
  onTrailers : gmap string string → FilterStatus
}.

(** Modelled from the spec: the proxy is declared outside the sources.
    The per-listener proxy, as far as the stream consults it: router,
    cluster manager, configured upstream protocol, access logs. *)
Record Proxy := mkProxy {
  routers : option (gmap string string) → option Route;
  clusterManagerGet : string → option ClusterInfo;
  SofaRpcConnPoolForCluster : string → option ConnectionPool;
  HttpConnPoolForCluster : string → string → option ConnectionPool;
  UpstreamProtocol : string;
  accessLogs : list nat;
  streamResetReasonToResponseFlag : string → Z
}.

(** Calls that leave downstream.go, in the order they are made. *)
Inductive event :=
| UpEncodeHeaders (r : UpstreamRequest) (headers : option (gmap string string)) (endStream : bool)
| UpEncodeData (r : UpstreamRequest) (buf : nat) (content : list Byte.byte) (endStream : bool)
| UpEncodeTrailers (r : UpstreamRequest) (trailers : gmap string string)
| UpResetStream (r : UpstreamRequest)
| DownEncodeHeaders (headers : option (gmap string string)) (endStream : bool)
| DownEncodeData (buf : nat) (content : list Byte.byte) (endStream : bool)
| DownEncodeTrailers (trailers : gmap string string)
| DownResetStream (reason : string)
| TimerStart (t : timer)
| TimerStop (t : timer)
| StatDownstreamRequestReset
| StatDownstreamRequestActiveDec
| StatClusterTimeout (c : ClusterInfo)
| StatHostTimeout (h : string)
| EncoderFilterDestroy (i : nat)
| DecoderFilterDestroy (i : nat)
| AccessLog (al : nat) (reqHeaders respHeaders : option (gmap string string)) (info : RequestInfo)
| DeleteActiveStream.

(** [activeStream].  [heap] is the store of [IoBuffer]s, a buffer being
    known by its address; [trace] is the list of external calls made so
    far.  Fields of the Go struct that no function below reads or writes
    (stream id, list element, watermarks, filter stage) are left out. *)
Record activeStream := mkActiveStream {
  proxy : Proxy;
  route : option Route;
  cluster : option ClusterInfo;
  timeout : option ProxyTimeout;
  retryState : option RetryState;
  requestInfo : RequestInfo;
  responseEncoder : option nat;
  upstreamRequest : option UpstreamRequest;
  perRetryTimer : option timer;
  responseTimer : option timer;
  downstreamReqHeaders : option (gmap string string);
  downstreamReqDataBuf : option nat;
  downstreamReqTrailers : option (gmap string string);
  downstreamRespHeaders : option (gmap string string);
  downstreamResponseStarted : bool;
  upstreamRequestSent : bool;
  downstreamRecvDone : bool;
  localProcessDone : bool;
  encoderFilters : list streamFilter;
  decoderFilters : list streamFilter;
  heap : list (list Byte.byte);
  trace : list event
}.

Definition set_route (v : option Route) (s : activeStream) : activeStream :=
  {| proxy := proxy s; route := v; cluster := cluster s; timeout := timeout s; retryState :=
  retryState s; requestInfo := requestInfo s; responseEncoder := responseEncoder s;
  upstreamRequest := upstreamRequest s; perRetryTimer := perRetryTimer s; responseTimer :=
  responseTimer s; downstreamReqHeaders := downstreamReqHeaders s; downstreamReqDataBuf :=
  downstreamReqDataBuf s; downstreamReqTrailers := downstreamReqTrailers s; downstreamRespHeaders
  := downstreamRespHeaders s; downstreamResponseStarted := downstreamResponseStarted s;
  upstreamRequestSent := upstreamRequestSent s; downstreamRecvDone := downstreamRecvDone s;
  localProcessDone := localProcessDone s; encoderFilters := encoderFilters s; decoderFilters :=
  decoderFilters s; heap := heap s; trace := trace s |}.

Definition set_cluster (v : option ClusterInfo) (s : activeStream) : activeStream :=
  {| proxy := proxy s; route := route s; cluster := v; timeout := timeout s; retryState :=
  retryState s; requestInfo := requestInfo s; responseEncoder := responseEncoder s;
  upstreamRequest := upstreamRequest s; perRetryTimer := perRetryTimer s; responseTimer :=
  responseTimer s; downstreamReqHeaders := downstreamReqHeaders s; downstreamReqDataBuf :=
  downstreamReqDataBuf s; downstreamReqTrailers := downstreamReqTrailers s; downstreamRespHeaders
  := downstreamRespHeaders s; downstreamResponseStarted := downstreamResponseStarted s;
  upstreamRequestSent := upstreamRequestSent s; downstreamRecvDone := downstreamRecvDone s;
  localProcessDone := localProcessDone s; encoderFilters := encoderFilters s; decoderFilters :=
  decoderFilters s; heap := heap s; trace := trace s |}.

Definition set_timeout (v : option ProxyTimeout) (s : activeStream) : activeStream :=
  {| proxy := proxy s; route := route s; cluster := cluster s; timeout := v; retryState :=
  retryState s; requestInfo := requestInfo s; responseEncoder := responseEncoder s;
  upstreamRequest := upstreamRequest s; perRetryTimer := perRetryTimer s; responseTimer :=
  responseTimer s; downstreamReqHeaders := downstreamReqHeaders s; downstreamReqDataBuf :=
  downstreamReqDataBuf s; downstreamReqTrailers := downstreamReqTrailers s; downstreamRespHeaders
  := downstreamRespHeaders s; downstreamResponseStarted := downstreamResponseStarted s;
  upstreamRequestSent := upstreamRequestSent s; downstreamRecvDone := downstreamRecvDone s;
  localProcessDone := localProcessDone s; encoderFilters := encoderFilters s; decoderFilters :=
  decoderFilters s; heap := heap s; trace := trace s |}.

Definition set_retryState (v : option RetryState) (s : activeStream) : activeStream :=
  {| proxy := proxy s; route := route s; cluster := cluster s; timeout := timeout s; retryState :=
  v; requestInfo := requestInfo s; responseEncoder := responseEncoder s; upstreamRequest :=
  upstreamRequest s; perRetryTimer := perRetryTimer s; responseTimer := responseTimer s;
  downstreamReqHeaders := downstreamReqHeaders s; downstreamReqDataBuf := downstreamReqDataBuf s;
  downstreamReqTrailers := downstreamReqTrailers s; downstreamRespHeaders := downstreamRespHeaders
  s; downstreamResponseStarted := downstreamResponseStarted s; upstreamRequestSent :=
  upstreamRequestSent s; downstreamRecvDone := downstreamRecvDone s; localProcessDone :=
  localProcessDone s; encoderFilters := encoderFilters s; decoderFilters := decoderFilters s; heap
  := heap s; trace := trace s |}.

Definition set_requestInfo (v : RequestInfo) (s : activeStream) : activeStream :=
  {| proxy := proxy s; route := route s; cluster := cluster s; timeout := timeout s; retryState :=
  retryState s; requestInfo := v; responseEncoder := responseEncoder s; upstreamRequest :=
  upstreamRequest s; perRetryTimer := perRetryTimer s; responseTimer := responseTimer s;
  downstreamReqHeaders := downstreamReqHeaders s; downstreamReqDataBuf := downstreamReqDataBuf s;
  downstreamReqTrailers := downstreamReqTrailers s; downstreamRespHeaders := downstreamRespHeaders
  s; downstreamResponseStarted := downstreamResponseStarted s; upstreamRequestSent :=
  upstreamRequestSent s; downstreamRecvDone := downstreamRecvDone s; localProcessDone :=
  localProcessDone s; encoderFilters := encoderFilters s; decoderFilters := decoderFilters s; heap
  := heap s; trace := trace s |}.

Definition set_upstreamRequest (v : option UpstreamRequest) (s : activeStream) : activeStream :=
  {| proxy := proxy s; route := route s; cluster := cluster s; timeout := timeout s; retryState :=
  retryState s; requestInfo := requestInfo s; responseEncoder := responseEncoder s;
  upstreamRequest := v; perRetryTimer := perRetryTimer s; responseTimer := responseTimer s;
  downstreamReqHeaders := downstreamReqHeaders s; downstreamReqDataBuf := downstreamReqDataBuf s;
  downstreamReqTrailers := downstreamReqTrailers s; downstreamRespHeaders := downstreamRespHeaders
  s; downstreamResponseStarted := downstreamResponseStarted s; upstreamRequestSent :=
  upstreamRequestSent s; downstreamRecvDone := downstreamRecvDone s; localProcessDone :=
  localProcessDone s; encoderFilters := encoderFilters s; decoderFilters := decoderFilters s; heap
  := heap s; trace := trace s |}.

Definition set_perRetryTimer (v : option timer) (s : activeStream) : activeStream :=
  {| proxy := proxy s; route := route s; cluster := cluster s; timeout := timeout s; retryState :=
  retryState s; requestInfo := requestInfo s; responseEncoder := responseEncoder s;
  upstreamRequest := upstreamRequest s; perRetryTimer := v; responseTimer := responseTimer s;
  downstreamReqHeaders := downstreamReqHeaders s; downstreamReqDataBuf := downstreamReqDataBuf s;
  downstreamReqTrailers := downstreamReqTrailers s; downstreamRespHeaders := downstreamRespHeaders
  s; downstreamResponseStarted := downstreamResponseStarted s; upstreamRequestSent :=
  upstreamRequestSent s; downstreamRecvDone := downstreamRecvDone s; localProcessDone :=
  localProcessDone s; encoderFilters := encoderFilters s; decoderFilters := decoderFilters s; heap
  := heap s; trace := trace s |}.

Definition set_responseTimer (v : option timer) (s : activeStream) : activeStream :=
  {| proxy := proxy s; route := route s; cluster := cluster s; timeout := timeout s; retryState :=
  retryState s; requestInfo := requestInfo s; responseEncoder := responseEncoder s;
  upstreamRequest := upstreamRequest s; perRetryTimer := perRetryTimer s; responseTimer := v;
  downstreamReqHeaders := downstreamReqHeaders s; downstreamReqDataBuf := downstreamReqDataBuf s;
  downstreamReqTrailers := downstreamReqTrailers s; downstreamRespHeaders := downstreamRespHeaders
  s; downstreamResponseStarted := downstreamResponseStarted s; upstreamRequestSent :=
  upstreamRequestSent s; downstreamRecvDone := downstreamRecvDone s; localProcessDone :=
  localProcessDone s; encoderFilters := encoderFilters s; decoderFilters := decoderFilters s; heap
  := heap s; trace := trace s |}.

Definition set_downstreamReqHeaders (v : option (gmap string string)) (s : activeStream) : activeStream :=
  {| proxy := proxy s; route := route s; cluster := cluster s; timeout := timeout s; retryState :=
  retryState s; requestInfo := requestInfo s; responseEncoder := responseEncoder s;
  upstreamRequest := upstreamRequest s; perRetryTimer := perRetryTimer s; responseTimer :=
  responseTimer s; downstreamReqHeaders := v; downstreamReqDataBuf := downstreamReqDataBuf s;
  downstreamReqTrailers := downstreamReqTrailers s; downstreamRespHeaders := downstreamRespHeaders
  s; downstreamResponseStarted := downstreamResponseStarted s; upstreamRequestSent :=
  upstreamRequestSent s; downstreamRecvDone := downstreamRecvDone s; localProcessDone :=
  localProcessDone s; encoderFilters := encoderFilters s; decoderFilters := decoderFilters s; heap
  := heap s; trace := trace s |}.

Definition set_downstreamReqDataBuf (v : option nat) (s : activeStream) : activeStream :=
  {| proxy := proxy s; route := route s; cluster := cluster s; timeout := timeout s; retryState :=
  retryState s; requestInfo := requestInfo s; responseEncoder := responseEncoder s;
  upstreamRequest := upstreamRequest s; perRetryTimer := perRetryTimer s; responseTimer :=
  responseTimer s; downstreamReqHeaders := downstreamReqHeaders s; downstreamReqDataBuf := v;
  downstreamReqTrailers := downstreamReqTrailers s; downstreamRespHeaders := downstreamRespHeaders
  s; downstreamResponseStarted := downstreamResponseStarted s; upstreamRequestSent :=
  upstreamRequestSent s; downstreamRecvDone := downstreamRecvDone s; localProcessDone :=
  localProcessDone s; encoderFilters := encoderFilters s; decoderFilters := decoderFilters s; heap
  := heap s; trace := trace s |}.

Definition set_downstreamReqTrailers (v : option (gmap string string)) (s : activeStream) : activeStream :=
  {| proxy := proxy s; route := route s; cluster := cluster s; timeout := timeout s; retryState :=
  retryState s; requestInfo := requestInfo s; responseEncoder := responseEncoder s;
  upstreamRequest := upstreamRequest s; perRetryTimer := perRetryTimer s; responseTimer :=
  responseTimer s; downstreamReqHeaders := downstreamReqHeaders s; downstreamReqDataBuf :=
  downstreamReqDataBuf s; downstreamReqTrailers := v; downstreamRespHeaders :=
  downstreamRespHeaders s; downstreamResponseStarted := downstreamResponseStarted s;
  upstreamRequestSent := upstreamRequestSent s; downstreamRecvDone := downstreamRecvDone s;
  localProcessDone := localProcessDone s; encoderFilters := encoderFilters s; decoderFilters :=
  decoderFilters s; heap := heap s; trace := trace s |}.

Definition set_downstreamRespHeaders (v : option (gmap string string)) (s : activeStream) : activeStream :=
  {| proxy := proxy s; route := route s; cluster := cluster s; timeout := timeout s; retryState :=
  retryState s; requestInfo := requestInfo s; responseEncoder := responseEncoder s;
  upstreamRequest := upstreamRequest s; perRetryTimer := perRetryTimer s; responseTimer :=
  responseTimer s; downstreamReqHeaders := downstreamReqHeaders s; downstreamReqDataBuf :=
  downstreamReqDataBuf s; downstreamReqTrailers := downstreamReqTrailers s; downstreamRespHeaders
  := v; downstreamResponseStarted := downstreamResponseStarted s; upstreamRequestSent :=
  upstreamRequestSent s; downstreamRecvDone := downstreamRecvDone s; localProcessDone :=
  localProcessDone s; encoderFilters := encoderFilters s; decoderFilters := decoderFilters s; heap
  := heap s; trace := trace s |}.

Definition set_downstreamResponseStarted (v : bool) (s : activeStream) : activeStream :=
  {| proxy := proxy s; route := route s; cluster := cluster s; timeout := timeout s; retryState :=
  retryState s; requestInfo := requestInfo s; responseEncoder := responseEncoder s;
  upstreamRequest := upstreamRequest s; perRetryTimer := perRetryTimer s; responseTimer :=
  responseTimer s; downstreamReqHeaders := downstreamReqHeaders s; downstreamReqDataBuf :=
  downstreamReqDataBuf s; downstreamReqTrailers := downstreamReqTrailers s; downstreamRespHeaders
  := downstreamRespHeaders s; downstreamResponseStarted := v; upstreamRequestSent :=
  upstreamRequestSent s; downstreamRecvDone := downstreamRecvDone s; localProcessDone :=
  localProcessDone s; encoderFilters := encoderFilters s; decoderFilters := decoderFilters s; heap
  := heap s; trace := trace s |}.

Definition set_upstreamRequestSent (v : bool) (s : activeStream) : activeStream :=
  {| proxy := proxy s; route := route s; cluster := cluster s; timeout := timeout s; retryState :=
  retryState s; requestInfo := requestInfo s; responseEncoder := responseEncoder s;
  upstreamRequest := upstreamRequest s; perRetryTimer := perRetryTimer s; responseTimer :=
  responseTimer s; downstreamReqHeaders := downstreamReqHeaders s; downstreamReqDataBuf :=
  downstreamReqDataBuf s; downstreamReqTrailers := downstreamReqTrailers s; downstreamRespHeaders
  := downstreamRespHeaders s; downstreamResponseStarted := downstreamResponseStarted s;
  upstreamRequestSent := v; downstreamRecvDone := downstreamRecvDone s; localProcessDone :=
  localProcessDone s; encoderFilters := encoderFilters s; decoderFilters := decoderFilters s; heap
  := heap s; trace := trace s |}.

Definition set_downstreamRecvDone (v : bool) (s : activeStream) : activeStream :=
  {| proxy := proxy s; route := route s; cluster := cluster s; timeout := timeout s; retryState :=
  retryState s; requestInfo := requestInfo s; responseEncoder := responseEncoder s;
  upstreamRequest := upstreamRequest s; perRetryTimer := perRetryTimer s; responseTimer :=
  responseTimer s; downstreamReqHeaders := downstreamReqHeaders s; downstreamReqDataBuf :=
  downstreamReqDataBuf s; downstreamReqTrailers := downstreamReqTrailers s; downstreamRespHeaders
  := downstreamRespHeaders s; downstreamResponseStarted := downstreamResponseStarted s;
  upstreamRequestSent := upstreamRequestSent s; downstreamRecvDone := v; localProcessDone :=
  localProcessDone s; encoderFilters := encoderFilters s; decoderFilters := decoderFilters s; heap
  := heap s; trace := trace s |}.

Definition set_localProcessDone (v : bool) (s : activeStream) : activeStream :=
  {| proxy := proxy s; route := route s; cluster := cluster s; timeout := timeout s; retryState :=
  retryState s; requestInfo := requestInfo s; responseEncoder := responseEncoder s;
  upstreamRequest := upstreamRequest s; perRetryTimer := perRetryTimer s; responseTimer :=
  responseTimer s; downstreamReqHeaders := downstreamReqHeaders s; downstreamReqDataBuf :=
  downstreamReqDataBuf s; downstreamReqTrailers := downstreamReqTrailers s; downstreamRespHeaders
  := downstreamRespHeaders s; downstreamResponseStarted := downstreamResponseStarted s;
  upstreamRequestSent := upstreamRequestSent s; downstreamRecvDone := downstreamRecvDone s;
  localProcessDone := v; encoderFilters := encoderFilters s; decoderFilters := decoderFilters s;
  heap := heap s; trace := trace s |}.

Definition set_heap (v : list (list Byte.byte)) (s : activeStream) : activeStream :=
  {| proxy := proxy s; route := route s; cluster := cluster s; timeout := timeout s; retryState :=
  retryState s; requestInfo := requestInfo s; responseEncoder := responseEncoder s;
  upstreamRequest := upstreamRequest s; perRetryTimer := perRetryTimer s; responseTimer :=
  responseTimer s; downstreamReqHeaders := downstreamReqHeaders s; downstreamReqDataBuf :=
  downstreamReqDataBuf s; downstreamReqTrailers := downstreamReqTrailers s; downstreamRespHeaders
  := downstreamRespHeaders s; downstreamResponseStarted := downstreamResponseStarted s;
  upstreamRequestSent := upstreamRequestSent s; downstreamRecvDone := downstreamRecvDone s;
  localProcessDone := localProcessDone s; encoderFilters := encoderFilters s; decoderFilters :=
  decoderFilters s; heap := v; trace := trace s |}.

Definition set_trace (v : list event) (s : activeStream) : activeStream :=
  {| proxy := proxy s; route := route s; cluster := cluster s; timeout := timeout s; retryState :=
  retryState s; requestInfo := requestInfo s; responseEncoder := responseEncoder s;
  upstreamRequest := upstreamRequest s; perRetryTimer := perRetryTimer s; responseTimer :=
  responseTimer s; downstreamReqHeaders := downstreamReqHeaders s; downstreamReqDataBuf :=
  downstreamReqDataBuf s; downstreamReqTrailers := downstreamReqTrailers s; downstreamRespHeaders
  := downstreamRespHeaders s; downstreamResponseStarted := downstreamResponseStarted s;
  upstreamRequestSent := upstreamRequestSent s; downstreamRecvDone := downstreamRecvDone s;
  localProcessDone := localProcessDone s; encoderFilters := encoderFilters s; decoderFilters :=
  decoderFilters s; heap := heap s; trace := v |}.


Definition set_ResponseFlags (v : Z) (i : RequestInfo) : RequestInfo :=
  {| BytesReceived := BytesReceived i; BytesSent := BytesSent i; ResponseFlags := v;
     RouteEntry := RouteEntry i |}.

Definition set_BytesReceived (v : Z) (i : RequestInfo) : RequestInfo :=
  {| BytesReceived := v; BytesSent := BytesSent i; ResponseFlags := ResponseFlags i;
     RouteEntry := RouteEntry i |}.

Definition set_BytesSent (v : Z) (i : RequestInfo) : RequestInfo :=
  {| BytesReceived := BytesReceived i; BytesSent := v; ResponseFlags := ResponseFlags i;
     RouteEntry := RouteEntry i |}.

Definition set_RouteEntry (v : option RouteRule) (i : RequestInfo) : RequestInfo :=
  {| BytesReceived := BytesReceived i; BytesSent := BytesSent i;
     ResponseFlags := ResponseFlags i; RouteEntry := v |}.

Definition set_backOffPending (v : bool) (rs : RetryState) : RetryState :=
  {| retryOn := retryOn rs; retryPolicy := retryPolicy rs;
     retriesRemaining := retriesRemaining rs; overflowed := overflowed rs;
     backOffPending := v |}.

(** ** Control: a state monad with a fault

    A function of the stream either returns with the new stream, or stops
    at a nil dereference, with the stream as it was at that point. *)

Inductive outcome (A : Type) :=
| Ok (a : A) (s : activeStream)
| Panic (s : activeStream).
Arguments Ok {A} a s.
Arguments Panic {A} s.

Definition M (A : Type) : Type := activeStream → outcome A.

Definition ret {A} (a : A) : M A := λ s, Ok a s.

Definition bind {A B} (m : M A) (k : A → M B) : M B :=
  λ s, match m s with
       | Ok a s' => k a s'
       | Panic s' => Panic s'
       end.

Notation "x <~ m ;; k" := (bind m (λ x, k))
  (at level 90, m at level 80, right associativity, format "x  <~  m  ;;  '/' k").
Notation "m ;;; k" := (bind m (λ _, k))
  (at level 90, right associativity, format "m  ;;;  '/' k").

Definition gets {A} (f : activeStream → A) : M A := λ s, Ok (f s) s.
Definition modify (f : activeStream → activeStream) : M unit := λ s, Ok tt (f s).
Definition panic {A} : M A := λ s, Panic s.
Definition skip : M unit := ret tt.
Definition when (b : bool) (m : M unit) : M unit := if b then m else skip.

(** Read a pointer field and dereference it. *)
Definition deref {A} (f : activeStream → option A) : M A :=
  o <~ gets f ;;
  match o with
  | Some a => ret a
  | None => panic
  end.

Definition emit (e : event) : M unit :=
  modify (λ s, set_trace (trace s ++ [e]) s).

Definition is_nil {A} (o : option A) : bool :=
  match o with Some _ => false | None => true end.

(** The result state of an outcome, and the calls made since [s]. *)
Definition final {A} (o : outcome A) : activeStream :=
  match o with Ok _ s => s | Panic s => s end.

Definition returned {A} (o : outcome A) : bool :=
  match o with Ok _ _ => true | Panic _ => false end.

(** ** Collaborators outside downstream.go *)

(** Modelled from the spec: the buffer package is not among the sources.
    An [IoBuffer] is a mutable byte buffer; [Clone] allocates a copy,
    [NewIoBuffer] allocates an empty buffer, [ReadFrom] appends the bytes
    read from the source buffer, which are consumed there. *)
Definition bufContent (h : list (list Byte.byte)) (b : nat) : list Byte.byte :=
  default [] (h !! b).

Definition bufLen (b : nat) : M nat := gets (λ s, length (bufContent (heap s) b)).

Definition bufClone (b : nat) : M nat :=
  s <~ gets id ;;
  modify (set_heap (heap s ++ [bufContent (heap s) b])) ;;;
  ret (length (heap s)).

Definition NewIoBuffer : M nat :=
  s <~ gets id ;;
  modify (set_heap (heap s ++ [[]])) ;;;
  ret (length (heap s)).

Definition bufReadFrom (dst src : nat) : M unit :=
  modify (λ s,
    let h := heap s in
    set_heap (<[src := []]> (<[dst := bufContent h dst ++ bufContent h src]> h)) s).

(** Modelled from the spec: retrystate.go is not among the sources.
    [retry] gives [NoRetry] once overflow has happened or when the policy
    does not ask for a retry of this response or reset, [RetryOverflow]
    when the budget is used up, and otherwise [ShouldRetry], scheduling
    the resume function after a back-off.  [reset] clears a pending
    back-off. *)
Definition retry (rs : RetryState) (headers : option (gmap string string)) (reason : string)
  : RetryCheckStatus * RetryState :=
  if overflowed rs then (NoRetry, rs)
  else if negb (retryPolicy rs headers reason) then (NoRetry, rs)
  else match retriesRemaining rs with
       | O => (RetryOverflow,
               {| retryOn := retryOn rs; retryPolicy := retryPolicy rs;
                  retriesRemaining := O; overflowed := true;
                  backOffPending := backOffPending rs |})
       | S n => (ShouldRetry,
                 {| retryOn := retryOn rs; retryPolicy := retryPolicy rs;
                    retriesRemaining := n; overflowed := false;
                    backOffPending := true |})
       end.

Definition retryState_reset (rs : RetryState) : RetryState :=
  set_backOffPending false rs.

(** [s.retryState.retry(headers, reason, s.doRetry)] on the stream. *)
Definition retryState_retry (headers : option (gmap string string)) (reason : string)
  : M RetryCheckStatus :=
  rs <~ deref retryState ;;
  modify (set_retryState (Some (snd (retry rs headers reason)))) ;;;
  ret (fst (retry rs headers reason)).

(** [s.retryState.reset()] on the stream; the method reads the fields of
    its receiver. *)
Definition retryState_reset_call : M unit :=
  rs <~ deref retryState ;;
  modify (set_retryState (Some (retryState_reset rs))).

(** Modelled from the spec: upstream.go is not among the sources.  An
    [UpstreamRequest] forwards to the upstream codec through the encoder
    that its pool hands back, together with the host, when the headers are
    encoded; every method reads the fields of its receiver. *)
Definition upstreamRequest_encodeHeaders (headers : option (gmap string string))
  (endStream : bool) : M unit :=
  r <~ deref upstreamRequest ;;
  let r' := {| connPool := connPool r; requestEncoder := Some (poolId (connPool r));
               host := poolHost (connPool r) |} in
  modify (set_upstreamRequest (Some r')) ;;;
  emit (UpEncodeHeaders r' headers endStream).

Definition upstreamRequest_encodeData (data : nat) (endStream : bool) : M unit :=
  r <~ deref upstreamRequest ;;
  h <~ gets heap ;;
  emit (UpEncodeData r data (bufContent h data) endStream).

Definition upstreamRequest_encodeTrailers (trailers : gmap string string) : M unit :=
  r <~ deref upstreamRequest ;;
  emit (UpEncodeTrailers r trailers).

Definition upstreamRequest_resetStream : M unit :=
  r <~ deref upstreamRequest ;;
  emit (UpResetStream r).

(** Modelled from the spec: the timer type is not among the sources.  A
    timer is created with its callback and duration and started; it can
    be stopped. *)
Definition timer_stop (t : timer) : M unit := emit (TimerStop t).
Definition timer_start (t : timer) : M unit := emit (TimerStart t).

(** Modelled from the spec: the filter traversal helpers are not among
    the sources.  A nil "from filter" starts at index 0, a filter resumes
    at its index plus one; the traversal stops, and the helper returns
    true, at the first filter whose status is not [Continue]. *)
Definition filterStart (from : option nat) : nat :=
  match from with
  | None => 0
  | Some i => S i
  end.

Definition stops (st : FilterStatus) : bool :=
  match st with
  | Continue => false
  | _ => true
  end.

Definition runFilters (from : option nat) (fs : list streamFilter)
  (call : streamFilter → FilterStatus) : bool :=
  existsb (λ f, stops (call f)) (drop (filterStart from) fs).

Definition decodeHeaderFilters (filter : option nat) (headers : option (gmap string string))
  (endStream : bool) : M bool :=
  gets (λ s, runFilters filter (decoderFilters s) (λ f, onHeaders f headers endStream)).

Definition decodeDataFilters (filter : option nat) (data : nat) (endStream : bool) : M bool :=
  gets (λ s, runFilters filter (decoderFilters s) (λ f, onData f data endStream)).

Definition decodeTrailersFilters (filter : option nat) (trailers : gmap string string) : M bool :=
  gets (λ s, runFilters filter (decoderFilters s) (λ f, onTrailers f trailers)).

Definition encodeHeaderFilters (filter : option nat) (headers : option (gmap string string))
  (endStream : bool) : M bool :=
  gets (λ s, runFilters filter (encoderFilters s) (λ f, onHeaders f headers endStream)).

Definition encodeDataFilters (filter : option nat) (data : nat) (endStream : bool) : M bool :=
  gets (λ s, runFilters filter (encoderFilters s) (λ f, onData f data endStream)).

Definition encodeTrailersFilters (filter : option nat) (trailers : gmap string string) : M bool :=
  gets (λ s, runFilters filter (encoderFilters s) (λ f, onTrailers f trailers)).

(** Modelled from the spec: [RequestInfo] is declared outside the
    sources.  [s.requestInfo.SetResponseFlag(flag)] adds the flag to the
    bit-set of response flags.  The time stamps that the stream writes
    into it (request received, response received) and the downstream
    addresses are not tracked. *)
Definition SetResponseFlag (flag : Z) : M unit :=
  modify (λ s, set_requestInfo
    (set_ResponseFlags (Z.lor (ResponseFlags (requestInfo s)) flag) (requestInfo s)) s).

(** Emit one event per element of a list, in order. *)
Fixpoint forEach {A} (f : A → M unit) (l : list A) : M unit :=
  match l with
  | [] => skip
  | x :: l' => f x ;;; forEach f l'
  end.

(** ** The functions of downstream.go *)

Section Downstream.

Context (K : TypesConsts).

Definition uint64_add (x y : Z) : Z := ((x + y) mod 2 ^ 64)%Z.

(** [strconv.Itoa]. *)
Definition Itoa (n : Z) : string := pretty n.

Definition cleanUp : M unit :=
  (* reset upstream request *)
  r <~ deref upstreamRequest ;;
  modify (set_upstreamRequest (Some (set_requestEncoder None r))) ;;;
  (* reset retry state *)
  retryState_reset_call ;;;
  (* reset pertry timer *)
  pt <~ gets perRetryTimer ;;
  (match pt with
   | Some t => timer_stop t ;;; modify (set_perRetryTimer None)
   | None => skip
   end) ;;;
  (* reset response timer *)
  rt <~ gets responseTimer ;;
  (match rt with
   | Some t => timer_stop t ;;; modify (set_responseTimer None)
   | None => skip
   end).

Definition cleanStream : M unit :=
  emit StatDownstreamRequestActiveDec ;;;
  emit StatDownstreamRequestActiveDec ;;;
  (* reset corresponding upstream stream *)
  r <~ gets upstreamRequest ;;
  when (negb (is_nil r)) upstreamRequest_resetStream ;;;
  (* clean up timers *)
  cleanUp ;;;
  (* tell filters it's time to destroy *)
  efs <~ gets encoderFilters ;;
  forEach (λ i, emit (EncoderFilterDestroy i)) (seq 0 (length efs)) ;;;
  dfs <~ gets decoderFilters ;;
  forEach (λ i, emit (DecoderFilterDestroy i)) (seq 0 (length dfs)) ;;;
  (* access log *)
  s <~ gets id ;;
  forEach (λ al, emit (AccessLog al (downstreamReqHeaders s) (downstreamRespHeaders s)
                         (requestInfo s)))
          (accessLogs (proxy s)) ;;;
  (* delete stream *)
  emit DeleteActiveStream.

Definition OnResetStream (reason : string) : M unit :=
  emit StatDownstreamRequestReset ;;;
  emit StatDownstreamRequestReset ;;;
  cleanStream.

(** Modelled from the spec: the downstream codec is not among the
    sources.  Resetting the downstream stream notifies its event
    listener, the active stream, whose [OnResetStream] does the cleanup. *)
Definition responseEncoder_ResetStream (reason : string) : M unit :=
  emit (DownResetStream reason) ;;;
  OnResetStream reason.

Definition endStream : M unit :=
  enc <~ gets responseEncoder ;;
  recvDone <~ gets downstreamRecvDone ;;
  procDone <~ gets localProcessDone ;;
  isReset <~ (if negb (is_nil enc) && (negb recvDone || negb procDone) then
                modify (set_localProcessDone true) ;;;
                responseEncoder_ResetStream (StreamLocalReset K) ;;;
                ret true
              else ret false) ;;
  when (negb isReset) cleanStream.

Definition resetStream : M unit := endStream.

Definition doEncodeHeaders (filter : option nat) (headers : option (gmap string string))
  (endStream_ : bool) : M unit :=
  stopped <~ encodeHeaderFilters filter headers endStream_ ;;
  if stopped then skip else
  _e <~ deref responseEncoder ;;
  emit (DownEncodeHeaders headers endStream_) ;;;
  when endStream_ endStream.

Definition encodeHeaders (headers : option (gmap string string)) (endStream_ : bool) : M unit :=
  modify (set_localProcessDone endStream_) ;;;
  doEncodeHeaders None headers endStream_.

Definition doEncodeData (filter : option nat) (data : nat) (endStream_ : bool) : M unit :=
  stopped <~ encodeDataFilters filter data endStream_ ;;
  if stopped then skip else
  _e <~ deref responseEncoder ;;
  h <~ gets heap ;;
  emit (DownEncodeData data (bufContent h data) endStream_) ;;;
  n <~ bufLen data ;;
  modify (λ s, set_requestInfo
    (set_BytesSent (uint64_add (BytesSent (requestInfo s)) (Z.of_nat n)) (requestInfo s)) s) ;;;
  when endStream_ endStream.

Definition encodeData (data : nat) (endStream_ : bool) : M unit :=
  modify (set_localProcessDone endStream_) ;;;
  doEncodeData None data endStream_.

Definition doEncodeTrailers (filter : option nat) (trailers : gmap string string) : M unit :=
  stopped <~ encodeTrailersFilters filter trailers ;;
  if stopped then skip else
  _e <~ deref responseEncoder ;;
  emit (DownEncodeTrailers trailers) ;;;
  endStream.

Definition encodeTrailers (trailers : gmap string string) : M unit :=
  modify (set_localProcessDone true) ;;;
  doEncodeTrailers None trailers.

(** The status is written into the map it is given; that the caller's map
    is the same object is not tracked. *)
Definition sendHijackReply (code : Z) (headers : option (gmap string string)) : M unit :=
  let headers := match headers with
                 | None => ∅
                 | Some h => h
                 end in
  encodeHeaders (Some (<[HeaderStatus K := Itoa code]> headers)) true.

Definition OnDecodeError (err : string) (headers : option (gmap string string)) : M unit :=
  if decide (err = CodecException K) then
    sendHijackReply (CodecExceptionCode K) headers
  else if decide (err = DeserializeException K) then
    sendHijackReply (DeserialExceptionCode K) headers
  else
    sendHijackReply (UnknownCode K) headers.

(** The switch on the upstream protocol configured on the proxy. *)
Definition connPoolForProtocol (p : Proxy) (clusterName : string) : option ConnectionPool :=
  if decide (UpstreamProtocol p = SofaRpc K) then SofaRpcConnPoolForCluster p clusterName
  else if decide (UpstreamProtocol p = Http2 K) then
    HttpConnPoolForCluster p clusterName (Http2 K)
  else if decide (UpstreamProtocol p = Http1 K) then
    HttpConnPoolForCluster p clusterName (Http1 K)
  else HttpConnPoolForCluster p clusterName (Http2 K).

(** Returns the pool, or nil together with an error. *)
Definition initializeUpstreamConnectionPool (clusterName : string)
  : M (option ConnectionPool) :=
  p <~ gets proxy ;;
  match clusterManagerGet p clusterName with
  | None =>
      (* no available cluster *)
      SetResponseFlag (NoRouteFound K) ;;;
      hs <~ gets downstreamReqHeaders ;;
      sendHijackReply (RouterUnavailableCode K) hs ;;;
      ret None
  | Some clusterInfo =>
      modify (set_cluster (Some clusterInfo)) ;;;
      match connPoolForProtocol p clusterName with
      | None =>
          SetResponseFlag (NoHealthyUpstream K) ;;;
          hs <~ gets downstreamReqHeaders ;;
          sendHijackReply (NoHealthUpstreamCode K) hs ;;;
          ret None
      | Some pool => ret (Some pool)
      end
  end.

Definition setupPerTryTimeout : M unit :=
  timeout_ <~ deref timeout ;;
  if (0 <? TryTimeout timeout_)%Z then
    pt <~ gets perRetryTimer ;;
    (match pt with
     | Some t => timer_stop t
     | None => skip
     end) ;;;
    let t := mkTimer onPerTryTimeoutCb (wrap_int64 (TryTimeout timeout_ * Second)) in
    modify (set_perRetryTimer (Some t)) ;;;
    timer_start t
  else skip.

Definition onUpstreamRequestSent : M unit :=
  modify (set_upstreamRequestSent true) ;;;
  r <~ gets upstreamRequest ;;
  if is_nil r then skip else
  (* setup per try timeout timer *)
  setupPerTryTimeout ;;;
  (* setup global timeout timer *)
  timeout_ <~ deref timeout ;;
  if (0 <? GlobalTimeout timeout_)%Z then
    rt <~ gets responseTimer ;;
    (match rt with
     | Some t => timer_stop t
     | None => skip
     end) ;;;
    let t := mkTimer onResponseTimeoutCb (GlobalTimeout timeout_) in
    modify (set_responseTimer (Some t)) ;;;
    timer_start t
  else skip.

Definition setupRetry (endStream_ : bool) : M bool :=
  sent <~ gets upstreamRequestSent ;;
  if negb sent then ret false else
  when (negb endStream_) upstreamRequest_resetStream ;;;
  modify (set_upstreamRequest None) ;;;
  ret true.

Definition onUpstreamReset (urtype : UpstreamResetType) (reason : string) : M unit :=
  (* see if we need a retry *)
  started <~ gets downstreamResponseStarted ;;
  rs <~ gets retryState ;;
  retrying <~ (if negb (match urtype with UpstreamGlobalTimeout => true | _ => false end)
                  && started && negb (is_nil rs) then
                 retryCheck <~ retryState_retry None reason ;;
                 match retryCheck with
                 | ShouldRetry => setupRetry true
                 | RetryOverflow => SetResponseFlag (UpstreamOverflow K) ;;; ret false
                 | NoRetry => ret false
                 end
               else ret false) ;;
  (* setup retry timer and return *)
  if retrying then skip else
  (* clean up all timers *)
  cleanUp ;;;
  (* If we have not yet sent anything downstream, send a response with an
     appropriate status code. Otherwise just reset the ongoing response. *)
  started <~ gets downstreamResponseStarted ;;
  if started then resetStream else
  code <~ (match urtype with
           | UpstreamGlobalTimeout | UpstreamPerTryTimeout =>
               SetResponseFlag (UpstreamRequestTimeout K) ;;;
               ret (TimeoutExceptionCode K)
           | _ =>
               p <~ gets proxy ;;
               SetResponseFlag (streamResetReasonToResponseFlag p reason) ;;;
               ret (NoHealthUpstreamCode K)
           end) ;;
  hs <~ gets downstreamReqHeaders ;;
  sendHijackReply code hs.

Definition onResponseTimeout : M unit :=
  modify (set_responseTimer None) ;;;
  c <~ deref cluster ;;
  emit (StatClusterTimeout c) ;;;
  r <~ gets upstreamRequest ;;
  (match r with
   | Some r =>
       (match host r with
        | Some h => emit (StatHostTimeout h)
        | None => skip
        end) ;;;
       upstreamRequest_resetStream
   | None => skip
   end) ;;;
  onUpstreamReset UpstreamGlobalTimeout (StreamLocalReset K).

Definition onPerTryTimeout : M unit :=
  started <~ gets downstreamResponseStarted ;;
  if negb started then
    (* handle timeout on response not *)
    modify (set_perRetryTimer None) ;;;
    c <~ deref cluster ;;
    emit (StatClusterTimeout c) ;;;
    r <~ deref upstreamRequest ;;
    (match host r with
     | Some h => emit (StatHostTimeout h)
     | None => skip
     end) ;;;
    upstreamRequest_resetStream ;;;
    SetResponseFlag (UpstreamRequestTimeout K) ;;;
    onUpstreamReset UpstreamPerTryTimeout (StreamLocalReset K)
  else skip.

Definition doRetry : M unit :=
  c <~ deref cluster ;;
  pool <~ initializeUpstreamConnectionPool (Name c) ;;
  match pool with
  | None =>
      hs <~ gets downstreamReqHeaders ;;
      sendHijackReply (NoHealthUpstreamCode K) hs ;;;
      cleanUp
  | Some pool =>
      modify (set_upstreamRequest
                (Some {| connPool := pool; requestEncoder := None; host := None |})) ;;;
      hs <~ gets downstreamReqHeaders ;;
      buf <~ gets downstreamReqDataBuf ;;
      trailers <~ gets downstreamReqTrailers ;;
      upstreamRequest_encodeHeaders hs (negb (is_nil buf) && negb (is_nil trailers)) ;;;
      r <~ gets upstreamRequest ;;
      if is_nil r then skip else
      buf <~ gets downstreamReqDataBuf ;;
      (match buf with
       | Some b =>
           (* make a data copy to retry *)
           copied <~ bufClone b ;;
           trailers <~ gets downstreamReqTrailers ;;
           upstreamRequest_encodeData copied (is_nil trailers)
       | None => skip
       end) ;;;
      trailers <~ gets downstreamReqTrailers ;;
      (match trailers with
       | Some t => upstreamRequest_encodeTrailers t
       | None => skip
       end) ;;;
      (* setup per try timeout timer *)
      setupPerTryTimeout
  end.

Definition doDecodeHeaders (filter : option nat) (headers : option (gmap string string))
  (endStream_ : bool) : M unit :=
  stopped <~ decodeHeaderFilters filter headers endStream_ ;;
  if stopped then skip else
  (* Get some route by service name *)
  p <~ gets proxy ;;
  match routers p headers with
  | Some (mkRoute (Some rule)) =>
      modify (set_route (Some (mkRoute (Some rule)))) ;;;
      modify (λ s, set_requestInfo (set_RouteEntry (Some rule) (requestInfo s)) s) ;;;
      pool <~ initializeUpstreamConnectionPool (ClusterName rule) ;;
      match pool with
      | None => skip
      | Some pool =>
          modify (set_timeout (Some (parseProxyTimeout rule headers))) ;;;
          c <~ gets cluster ;;
          modify (set_retryState (Some (newRetryState rule headers c))) ;;;
          (* Build Request *)
          modify (set_upstreamRequest
                    (Some {| connPool := pool; requestEncoder := None; host := None |})) ;;;
          (* Call upstream's encode header method to build upstream's request *)
          upstreamRequest_encodeHeaders headers endStream_ ;;;
          when endStream_ onUpstreamRequestSent
      end
  | _ =>
      (* no route *)
      SetResponseFlag (NoRouteFound K) ;;;
      sendHijackReply (RouterUnavailableCode K) headers
  end.

Definition OnDecodeHeaders (headers : option (gmap string string)) (endStream_ : bool)
  : M unit :=
  modify (set_downstreamRecvDone endStream_) ;;;
  modify (set_downstreamReqHeaders headers) ;;;
  doDecodeHeaders None headers endStream_.

Definition doDecodeData (filter : option nat) (data : nat) (endStream_ : bool) : M unit :=
  (* if active stream finished the lifecycle, just ignore further data *)
  done_ <~ gets localProcessDone ;;
  if done_ then skip else
  stopped <~ decodeDataFilters filter data endStream_ ;;
  if stopped then skip else
  rs <~ gets retryState ;;
  let shouldBufData := match rs with
                       | Some rs => retryOn rs
                       | None => false
                       end in
  when endStream_ onUpstreamRequestSent ;;;
  if shouldBufData then
    copied <~ bufClone data ;;
    buf <~ gets downstreamReqDataBuf ;;
    (if decide (buf = Some data) then skip else
       (* not in on decodeData continue decode context *)
       dst <~ (match buf with
               | Some b => ret b
               | None =>
                   b <~ NewIoBuffer ;;
                   modify (set_downstreamReqDataBuf (Some b)) ;;;
                   ret b
               end) ;;
       bufReadFrom dst data) ;;;
    (* use a copy when we need to reuse buffer later *)
    upstreamRequest_encodeData copied endStream_
  else
    upstreamRequest_encodeData data endStream_.

Definition OnDecodeData (data : nat) (endStream_ : bool) : M unit :=
  n <~ bufLen data ;;
  modify (λ s, set_requestInfo
    (set_BytesReceived (uint64_add (BytesReceived (requestInfo s)) (Z.of_nat n))
       (requestInfo s)) s) ;;;
  modify (set_downstreamRecvDone endStream_) ;;;
  doDecodeData None data endStream_.

Definition doDecodeTrailers (filter : option nat) (trailers : gmap string string) : M unit :=
  (* if active stream finished the lifecycle, just ignore further data *)
  done_ <~ gets localProcessDone ;;
  if done_ then skip else
  stopped <~ decodeTrailersFilters filter trailers ;;
  if stopped then skip else
  modify (set_downstreamReqTrailers (Some trailers)) ;;;
  onUpstreamRequestSent ;;;
  upstreamRequest_encodeTrailers trailers.

Definition OnDecodeTrailers (trailers : gmap string string) : M unit :=
  modify (set_downstreamRecvDone true) ;;;
  doDecodeTrailers None trailers.

Definition onUpstreamResponseRecvFinished : M unit :=
  sent <~ gets upstreamRequestSent ;;
  when (negb sent) upstreamRequest_resetStream ;;;
  cleanUp.

Definition onUpstreamHeaders (headers : option (gmap string string)) (endStream_ : bool)
  : M unit :=
  (* check retry *)
  modify (set_downstreamRespHeaders headers) ;;;
  rs <~ gets retryState ;;
  retrying <~ (if is_nil rs then ret false else
                 retryCheck <~ retryState_retry headers "" ;;
                 retrying <~ (match retryCheck with
                              | ShouldRetry => setupRetry endStream_
                              | RetryOverflow =>
                                  SetResponseFlag (UpstreamOverflow K) ;;; ret false
                              | NoRetry => ret false
                              end) ;;
                 if retrying then ret true else
                 retryState_reset_call ;;;
                 ret false) ;;
  if retrying then skip else
  modify (set_downstreamResponseStarted true) ;;;
  when endStream_ onUpstreamResponseRecvFinished ;;;
  encodeHeaders headers endStream_.

Definition onUpstreamData (data : nat) (endStream_ : bool) : M unit :=
  when endStream_ onUpstreamResponseRecvFinished ;;;
  encodeData data endStream_.

Definition onUpstreamTrailers (trailers : gmap string string) : M unit :=
  onUpstreamResponseRecvFinished ;;;
  encodeTrailers trailers.

(** The back-off of the retry state expires: the resume function that
    [retry] was given, [doRetry], runs if the back-off is still pending. *)
Definition onRetryBackOff : M unit :=
  rs <~ gets retryState ;;
  match rs with
  | Some rs =>
      if backOffPending rs then
        modify (set_retryState (Some (retryState_reset rs))) ;;;
        doRetry
      else skip
  | None => skip
  end.

End Downstream.

(** ** Events of a run, and an example configuration *)

(** The stop events that cleaning a timer handle produces. *)
Definition stopsOf (t : option timer) : list event :=
  match t with
  | Some t => [TimerStop t]
  | None => []
  end.

(** The calls made by a run that started in [s]. *)
Definition emitted {A} (s : activeStream) (o : outcome A) : list event :=
  drop (length (trace s)) (trace (final o)).

(** Calls that hand request bytes to an upstream, or open one. *)
Definition isUpstreamEncode (e : event) : bool :=
  match e with
  | UpEncodeHeaders _ _ _ | UpEncodeData _ _ _ _ | UpEncodeTrailers _ _ => true
  | _ => false
  end.

Definition isDownReset (e : event) : bool :=
  match e with
  | DownResetStream _ => true
  | _ => false
  end.

(** The [endStream] arguments of the header encodes sent upstream. *)
Fixpoint headerEndStreams (tr : list event) : list bool :=
  match tr with
  | [] => []
  | UpEncodeHeaders _ _ e :: tr' => e :: headerEndStreams tr'
  | _ :: tr' => headerEndStreams tr'
  end.

(** Decode events that follow the headers of a request. *)
Inductive decodeEvent :=
| DecodeData (data : nat) (endStream : bool)
| DecodeTrailers (trailers : gmap string string)
| ContinueDecodeData (filter : nat) (data : nat) (endStream : bool)
| ContinueDecodeTrailers (filter : nat) (trailers : gmap string string).

Definition onDecodeEvent (ev : decodeEvent) : M unit :=
  match ev with
  | DecodeData data e => OnDecodeData data e
  | DecodeTrailers t => OnDecodeTrailers t
  | ContinueDecodeData f data e => doDecodeData (Some f) data e
  | ContinueDecodeTrailers f t => doDecodeTrailers (Some f) t
  end.

Fixpoint onDecodeEvents (evs : list decodeEvent) : M unit :=
  match evs with
  | [] => skip
  | ev :: evs' => onDecodeEvent ev ;;; onDecodeEvents evs'
  end.

(** An instance of the constants and a small deployment: one route, for
    host 192.168.100.100, to cluster server_1 with a single host; a
    per-try timeout of one second, a global timeout of five seconds, and
    a retry policy that allows one retry, on a 503 response or on any
    upstream reset. *)
Module Ex.

Definition consts : TypesConsts :=
  {| HeaderStatus := "x-mosn-status";
     CodecException := "codec exception occurs";
     DeserializeException := "deserial exception occurs";
     CodecExceptionCode := 0; DeserialExceptionCode := 3; UnknownCode := 2;
     RouterUnavailableCode := 404; NoHealthUpstreamCode := 502;
     TimeoutExceptionCode := 504;
     NoRouteFound := 2; NoHealthyUpstream := 1; UpstreamRequestTimeout := 4;
     UpstreamOverflow := 8;
     StreamLocalReset := "StreamLocalReset";
     SofaRpc := "SofaRpc"; Http1 := "Http1"; Http2 := "Http2" |}.

Definition policy (headers : option (gmap string string)) (reason : string) : bool :=
  match headers with
  | Some h => bool_decide (h !! ":status" = Some "503")
  | None => true
  end.

Definition retry0 : RetryState :=
  {| retryOn := true; retryPolicy := policy; retriesRemaining := 1;
     overflowed := false; backOffPending := false |}.

Definition rule : RouteRule :=
  {| ClusterName := "server_1";
     parseProxyTimeout := λ _, {| GlobalTimeout := 5000000000; TryTimeout := 1 |};
     newRetryState := λ _ _, retry0 |}.

Definition pool : ConnectionPool :=
  {| poolId := 7; poolHost := Some "192.168.100.100:12200" |}.

Definition theProxy : Proxy :=
  {| routers := λ headers,
       match headers with
       | Some h => if decide (h !! "host" = Some "192.168.100.100")
                   then Some (mkRoute (Some rule)) else None
       | None => None
       end;
     clusterManagerGet := λ name,
       if decide (name = "server_1") then Some (mkClusterInfo "server_1") else None;
     SofaRpcConnPoolForCluster := λ _, Some pool;
     HttpConnPoolForCluster := λ _ _, Some pool;
     UpstreamProtocol := "SofaRpc";
     accessLogs := [0];
     streamResetReasonToResponseFlag := λ _, 16%Z |}.

(** A proxy whose cluster manager knows no cluster, and one whose
    cluster has no healthy pool. *)
Definition noClusterProxy : Proxy :=
  {| routers := routers theProxy;
     clusterManagerGet := λ _, None;
     SofaRpcConnPoolForCluster := λ _, Some pool;
     HttpConnPoolForCluster := λ _ _, Some pool;
     UpstreamProtocol := "SofaRpc";
     accessLogs := [0];
     streamResetReasonToResponseFlag := λ _, 16%Z |}.

Definition noPoolProxy : Proxy :=
  {| routers := routers theProxy;
     clusterManagerGet := clusterManagerGet theProxy;
     SofaRpcConnPoolForCluster := λ _, None;
     HttpConnPoolForCluster := λ _ _, None;
     UpstreamProtocol := "SofaRpc";
     accessLogs := [0];
     streamResetReasonToResponseFlag := λ _, 16%Z |}.

(** A stream as [newActiveStream] leaves it. *)
Definition freshOn (p : Proxy) : activeStream :=
  {| proxy := p; route := None; cluster := None; timeout := None;
     retryState := None; requestInfo := mkRequestInfo 0 0 0 None;
     responseEncoder := Some 1; upstreamRequest := None; perRetryTimer := None;
     responseTimer := None; downstreamReqHeaders := None; downstreamReqDataBuf := None;
     downstreamReqTrailers := None; downstreamRespHeaders := None;
     downstreamResponseStarted := false; upstreamRequestSent := false;
     downstreamRecvDone := false; localProcessDone := false;
     encoderFilters := []; decoderFilters := []; heap := []; trace := [] |}.

Definition fresh : activeStream := freshOn theProxy.

Definition reqHeaders : option (gmap string string) :=
  Some {[ "host" := "192.168.100.100" ]}.

Definition unroutedHeaders : option (gmap string string) :=
  Some {[ "host" := "10.0.0.1" ]}.

Definition resp200 : option (gmap string string) := Some {[ ":status" := "200" ]}.
Definition resp503 : option (gmap string string) := Some {[ ":status" := "503" ]}.

(** The upstream attempt of the example, once its headers are encoded. *)
Definition attempt : UpstreamRequest :=
  {| connPool := pool; requestEncoder := Some 7;
     host := Some "192.168.100.100:12200" |}.

Definition perTryTimer : timer := mkTimer onPerTryTimeoutCb 1000000000.
Definition globalTimer : timer := mkTimer onResponseTimeoutCb 5000000000.

End Ex.

(** ** Framing: what a piece of code may call and must keep *)

(** A frame is a set of allowed calls together with a relation between
    the stream before and after, closed under composition and blind to
    the trace. *)
Record frame := mkFrame {
  allowed : event → bool;
  kept : activeStream → activeStream → Prop;
  kept_refl : ∀ s, kept s s;
  kept_trans : ∀ s1 s2 s3, kept s1 s2 → kept s2 s3 → kept s1 s3;
  kept_trace : ∀ s tr, kept s (set_trace tr s)
}.

(** Code stays in a frame when, from every stream and whether it returns
    or faults, it only appends allowed calls to the trace and leaves the
    stream related to the one it started from. *)
Definition framed (F : frame) {A} (m : M A) : Prop :=
  ∀ s, ∃ l, trace (final (m s)) = trace s ++ l
            ∧ forallb (allowed F) l = true
            ∧ kept F s (final (m s)).

(** Calls made when a stream is torn down, after the statistics. *)
Definition isTeardown (e : event) : bool :=
  match e with
  | UpResetStream _ | TimerStop _ | EncoderFilterDestroy _ | DecoderFilterDestroy _
  | AccessLog _ _ _ _ | DeleteActiveStream => true
  | _ => false
  end.

(** Teardown keeps the progress flags, the presence of an upstream
    request, the request buffers and the buffer store. *)
Definition teardownKeeps (s s' : activeStream) : Prop :=
  localProcessDone s' = localProcessDone s
  ∧ is_nil (upstreamRequest s') = is_nil (upstreamRequest s)
  ∧ heap s' = heap s.

(** Calls of a reply that the proxy makes on its own: anything but an
    encode towards an upstream. *)
Definition isLocalReply (e : event) : bool := negb (isUpstreamEncode e).

(** No upstream request comes into being. *)
Definition noRequestCreated (s s' : activeStream) : Prop :=
  is_nil (upstreamRequest s') = is_nil (upstreamRequest s).

(** The retry of the stream is possible given what is buffered. *)
Definition retryPossible (s : activeStream) : bool :=
  match retryState s with
  | Some rs => retryOn rs
  | None => false
  end.

(** The stream can acquire [pool] for the cluster it is bound to. *)
Definition poolAcquired (K : TypesConsts) (s : activeStream) (pool : ConnectionPool) : Prop :=
  ∃ c ci, cluster s = Some c
          ∧ clusterManagerGet (proxy s) (Name c) = Some ci
          ∧ connPoolForProtocol K (proxy s) (Name c) = Some pool.

(** The test of [endStream] for an abnormal end. *)
Definition abnormalEnd (s : activeStream) : bool :=
  negb (is_nil (responseEncoder s))
  && (negb (downstreamRecvDone s) || negb (localProcessDone s)).

(** The headers of a hijack reply: the given headers, or fresh ones, with
    the status field set to the code in decimal. *)
Definition hijackHeaders (K : TypesConsts) (code : Z) (headers : option (gmap string string))
  : gmap string string :=
  <[HeaderStatus K := Itoa code]> (default ∅ headers).

(** No encoder filter holds back the headers of a reply. *)
Definition encoderFiltersPass (s : activeStream) (headers : option (gmap string string))
  (endStream : bool) : Prop :=
  runFilters None (encoderFilters s) (λ f, onHeaders f headers endStream) = false.

Definition isTimerStop (e : event) : bool :=
  match e with
  | TimerStop _ => true
  | _ => false
  end.

(** The example stream with one request body, "ab", in the buffer store
    at address 0. *)
Definition freshWithBody : activeStream :=
  set_heap [[Byte.x61; Byte.x62]] Ex.fresh.

(** The request bodies encoded towards an upstream: address of the
    buffer handed over, its bytes then, and the [endStream] argument. *)
Fixpoint dataEncodes (tr : list event) : list (nat * list Byte.byte * bool) :=
  match tr with
  | [] => []
  | UpEncodeData _ b c e :: tr' => (b, c, e) :: dataEncodes tr'
  | _ :: tr' => dataEncodes tr'
  end.

(** The bytes already retained for a retry, apart from the buffer that is
    being decoded. *)
Definition retainedBefore (s : activeStream) (data : nat) : list Byte.byte :=
  match downstreamReqDataBuf s with
  | Some b => if decide (b = data) then [] else bufContent (heap s) b
  | None => []
  end.

(** What the dispatch of one decoded data buffer does with it.  When a
    retry is possible the only thing encoded upstream is a clone, at a
    fresh address and holding the bytes of the buffer, and the bytes are
    retained in [downstreamReqDataBuf], after those retained before.
    Otherwise the only thing encoded upstream is the buffer itself, and
    neither [downstreamReqDataBuf] nor the buffer store changes. *)
Definition bufferingAtDispatch (from : option nat) (data : nat) (endStream : bool)
  (s : activeStream) (r : UpstreamRequest) : Prop :=
  let o := doDecodeData from data endStream s in
  returned o = true
  ∧ if retryPossible s then
      filter isUpstreamEncode (emitted s o)
      = [UpEncodeData r (length (heap s)) (bufContent (heap s) data) endStream]
      ∧ bufContent (heap (final o)) (length (heap s)) = bufContent (heap s) data
      ∧ ∃ b, downstreamReqDataBuf (final o) = Some b
             ∧ b ≠ length (heap s)
             ∧ bufContent (heap (final o)) b
               = retainedBefore s data ++ bufContent (heap s) data
    else
      filter isUpstreamEncode (emitted s o)
      = [UpEncodeData r data (bufContent (heap s) data) endStream]
      ∧ downstreamReqDataBuf (final o) = downstreamReqDataBuf s
      ∧ heap (final o) = heap s.

(** What [doRetry] does with the buffered body [b]: the one body it
    encodes upstream is a clone, at a fresh address and holding the bytes
    of [b], with [endStream] set when there are no trailers; [b] stays
    the retained buffer, its bytes untouched. *)
Definition retryBodyFromClone (K : TypesConsts) (s : activeStream) (b : nat) : Prop :=
  let o := doRetry K s in
  dataEncodes (emitted s o)
  = [(length (heap s), bufContent (heap s) b, is_nil (downstreamReqTrailers s))]
  ∧ length (heap s) ≠ b
  ∧ downstreamReqDataBuf (final o) = Some b
  ∧ bufContent (heap (final o)) b = bufContent (heap s) b.

Definition teardownFrame : frame.
Proof.
  refine (mkFrame isTeardown teardownKeeps _ _ _); unfold teardownKeeps.
  - auto.
  - intros s1 s2 s3 (?&?&?) (?&?&?). repeat split; congruence.
  - intros [] tr. simpl. auto.
Defined.

Definition localReplyFrame : frame.
Proof.
  refine (mkFrame isLocalReply noRequestCreated _ _ _); unfold noRequestCreated.
  - auto.
  - intros s1 s2 s3 ? ?. congruence.
  - intros [] tr. simpl. auto.
Defined.

(** ** Release of a live stream *)

(** The calls that [cleanStream] makes on a stream whose upstream request
    is [r], in order: the two active-request counters, the reset of the
    upstream request, the stops of the timers that are armed, the
    destruction of the encoder filters and then of the decoder filters,
    one record per access log, and the removal from the active set. *)
Definition teardownCalls (s : activeStream) (r : UpstreamRequest) : list event :=
  [StatDownstreamRequestActiveDec; StatDownstreamRequestActiveDec; UpResetStream r]
  ++ stopsOf (perRetryTimer s) ++ stopsOf (responseTimer s)
  ++ map EncoderFilterDestroy (seq 0 (length (encoderFilters s)))
  ++ map DecoderFilterDestroy (seq 0 (length (decoderFilters s)))
  ++ map (λ al, AccessLog al (downstreamReqHeaders s) (downstreamRespHeaders s)
                  (requestInfo s)) (accessLogs (proxy s))
  ++ [DeleteActiveStream].

(** The stream after [cleanUp]: encoder of the upstream request released,
    back-off cleared, timer handles nil. *)
Definition cleanedUp (s : activeStream) (r : UpstreamRequest) (rs : RetryState)
  : activeStream :=
  set_trace (trace s ++ stopsOf (perRetryTimer s) ++ stopsOf (responseTimer s))
    (set_responseTimer None
       (set_perRetryTimer None
          (set_retryState (Some (retryState_reset rs))
             (set_upstreamRequest (Some (set_requestEncoder None r)) s)))).

(** The stream after [cleanStream]. *)
Definition cleanedStream (s : activeStream) (r : UpstreamRequest) (rs : RetryState)
  : activeStream :=
  set_trace (trace s ++ teardownCalls s r)
    (set_responseTimer None
       (set_perRetryTimer None
          (set_retryState (Some (retryState_reset rs))
             (set_upstreamRequest (Some (set_requestEncoder None r)) s)))).

(** The calls by which a reply that ends the response reaches the
    downstream: the headers, with [endStream] set, and, when the request
    was not received to its end, the reset of the downstream stream with
    the two reset counters that it triggers. *)
Definition replyCalls (K : TypesConsts) (s : activeStream) (headers : gmap string string)
  : list event :=
  DownEncodeHeaders (Some headers) true
  :: (if downstreamRecvDone s then []
      else [DownResetStream (StreamLocalReset K); StatDownstreamRequestReset;
            StatDownstreamRequestReset]).

(** The stream after a hijack reply with [code], released. *)
Definition hijacked (K : TypesConsts) (code : Z) (headers : option (gmap string string))
  (s : activeStream) (r : UpstreamRequest) (rs : RetryState) : activeStream :=
  cleanedStream
    (set_trace (trace s ++ replyCalls K s (hijackHeaders K code headers))
       (set_localProcessDone true s)) r rs.

(** The timeout counters bumped when a timer fires: the one of the
    cluster, and the one of the host when the upstream request has one. *)
Definition timeoutStats (c : ClusterInfo) (r : UpstreamRequest) : list event :=
  StatClusterTimeout c
  :: match host r with
     | Some h => [StatHostTimeout h]
     | None => []
     end.


(** A stream that can be answered and released: it has an upstream
    request and a retry state, and a response encoder. *)
Definition live (s : activeStream) (r : UpstreamRequest) (rs : RetryState) : Prop :=
  upstreamRequest s = Some r ∧ retryState s = Some rs
  ∧ is_nil (responseEncoder s) = false.

(** The example stream once its headers-only request is sent: upstream
    attempt [Ex.attempt], both timers armed. *)
Definition sentStream : activeStream :=
  final (OnDecodeHeaders Ex.consts Ex.reqHeaders true Ex.fresh).

(** The example stream once the upstream has answered 200 and more of
    the response is to come. *)
Definition startedStream : activeStream :=
  final ((OnDecodeHeaders Ex.consts Ex.reqHeaders true ;;;
          onUpstreamHeaders Ex.consts Ex.resp200 false) Ex.fresh).

(** The example stream while its request is still being received: the
    headers are forwarded, no timer is armed yet. *)
Definition receivingStream : activeStream :=
  final (OnDecodeHeaders Ex.consts Ex.reqHeaders false freshWithBody).

(** The calls of the downstream reset that the proxy makes when the
    response ends before the request was received to its end. *)
Definition resetCalls (K : TypesConsts) (s : activeStream) : list event :=
  if downstreamRecvDone s then []
  else [DownResetStream (StreamLocalReset K); StatDownstreamRequestReset;
        StatDownstreamRequestReset].

(** What the end of the upstream response does before the last piece goes
    downstream: the upstream request is reset if the request was not sent
    to its end, and the armed timers are stopped. *)
Definition finishCalls (s : activeStream) (r : UpstreamRequest) : list event :=
  (if upstreamRequestSent s then [] else [UpResetStream r])
  ++ stopsOf (perRetryTimer s) ++ stopsOf (responseTimer s).

(** ** Replies before an upstream attempt *)

(** What a hijack reply and the cleanup after it leave alone: the request
    info with its flags, the routing snapshot, the timeout, the request
    headers, and whether there is an upstream request or a retry state. *)
Definition replyKeeps (s s' : activeStream) : Prop :=
  requestInfo s' = requestInfo s
  ∧ route s' = route s
  ∧ cluster s' = cluster s
  ∧ timeout s' = timeout s
  ∧ downstreamReqHeaders s' = downstreamReqHeaders s
  ∧ is_nil (upstreamRequest s') = is_nil (upstreamRequest s)
  ∧ is_nil (retryState s') = is_nil (retryState s).

Definition replyFrame : frame.
Proof.
  refine (mkFrame isLocalReply replyKeeps _ _ _); unfold replyKeeps.
  - intros s. repeat split; reflexivity.
  - intros s1 s2 s3 (?&?&?&?&?&?&?) (?&?&?&?&?&?&?). repeat split; congruence.
  - intros [] tr. simpl. repeat split; reflexivity.
Defined.


(** ** Timers of an attempt *)

(** The timers that [onUpstreamRequestSent] arms for a timeout: the
    per-try bound is a number of seconds, the global bound a duration. *)
Definition perTryTimerOf (t : ProxyTimeout) : timer :=
  mkTimer onPerTryTimeoutCb (wrap_int64 (TryTimeout t * Second)).

Definition globalTimerOf (t : ProxyTimeout) : timer :=
  mkTimer onResponseTimeoutCb (GlobalTimeout t).

(** The calls that arm the per-try timer, and both timers: a timer is
    armed only for a positive bound, after the timer its handle held
    before is stopped. *)
Definition perTryArmCalls (s : activeStream) (t : ProxyTimeout) : list event :=
  if (0 <? TryTimeout t)%Z
  then stopsOf (perRetryTimer s) ++ [TimerStart (perTryTimerOf t)]
  else [].

Definition armCalls (s : activeStream) (t : ProxyTimeout) : list event :=
  perTryArmCalls s t
  ++ (if (0 <? GlobalTimeout t)%Z
      then stopsOf (responseTimer s) ++ [TimerStart (globalTimerOf t)]
      else []).

(** ** Accounting *)

Definition anyCall (e : event) : bool := true.

Definition infoKept (s s' : activeStream) : Prop := requestInfo s' = requestInfo s.

(** Whatever is called, the request info is left as it is. *)
Definition infoFrame : frame.
Proof.
  refine (mkFrame anyCall infoKept _ _ _); unfold infoKept.
  - reflexivity.
  - intros s1 s2 s3 ? ?. congruence.
  - intros [] tr. reflexivity.
Defined.

(** The request body and trailers that [doRetry] encodes after the
    headers: the body from a clone at the next free address of the buffer
    store, ending the request when there are no trailers. *)
Definition retryBodyCalls (s : activeStream) (r : UpstreamRequest) : list event :=
  match downstreamReqDataBuf s with
  | Some b => [UpEncodeData r (length (heap s)) (bufContent (heap s) b)
                 (is_nil (downstreamReqTrailers s))]
  | None => []
  end
  ++ match downstreamReqTrailers s with
     | Some t => [UpEncodeTrailers r t]
     | None => []
     end.

(** ** Flow control (the watermark callbacks of downstream.go)

    The watermark callbacks read the upstream request and the response
    encoder of the stream and keep a nesting counter of their own, a Go
    [int].  The calls they make are recorded in [flowCalls]. *)

Inductive flowCall :=
| UpstreamReadDisable (enc : nat) (disable : bool)
| DownstreamReadDisable (enc : nat) (disable : bool)
| WatermarkAbove (cb : nat)
| WatermarkBelow (cb : nat).

Record flowState := mkFlow {
  stream : activeStream;
  highWatermarkCount : Z;
  watermarkCallbacks : option nat;
  flowCalls : list flowCall
}.

Definition set_stream (s : activeStream) (f : flowState) : flowState :=
  {| stream := s; highWatermarkCount := highWatermarkCount f;
     watermarkCallbacks := watermarkCallbacks f; flowCalls := flowCalls f |}.

(** [s.upstreamRequest.requestEncoder]: nil when either pointer is. *)
Definition upstreamEncoder (f : flowState) : option nat :=
  match upstreamRequest (stream f) with
  | Some r => requestEncoder r
  | None => None
  end.

(** A fault is [None]. *)
Definition callHighWatermarkCallbacks (f : flowState) : option flowState :=
  match upstreamEncoder f with
  | None => None
  | Some enc =>
      Some {| stream := stream f;
              highWatermarkCount := wrap_int64 (highWatermarkCount f + 1);
              watermarkCallbacks := watermarkCallbacks f;
              flowCalls := flowCalls f ++ UpstreamReadDisable enc true
                             :: match watermarkCallbacks f with
                                | Some cb => [WatermarkAbove cb]
                                | None => []
                                end |}
  end.

Definition OnAboveWriteBufferHighWatermark (f : flowState) : option flowState :=
  callHighWatermarkCallbacks f.

Definition callLowWatermarkCallbacks (f : flowState) : option flowState :=
  match upstreamEncoder f with
  | None => None
  | Some enc =>
      Some {| stream := stream f;
              highWatermarkCount := wrap_int64 (highWatermarkCount f - 1);
              watermarkCallbacks := watermarkCallbacks f;
              flowCalls := flowCalls f ++ UpstreamReadDisable enc false
                             :: match watermarkCallbacks f with
                                | Some cb => [WatermarkBelow cb]
                                | None => []
                                end |}
  end.

Definition OnBelowWriteBufferLowWatermark (f : flowState) : option flowState :=
  callLowWatermarkCallbacks f.

Definition onUpstreamAboveWriteBufferHighWatermark (f : flowState) : option flowState :=
  match responseEncoder (stream f) with
  | None => None
  | Some enc =>
      Some {| stream := stream f; highWatermarkCount := highWatermarkCount f;
              watermarkCallbacks := watermarkCallbacks f;
              flowCalls := flowCalls f ++ [DownstreamReadDisable enc true] |}
  end.

Definition onUpstreamBelowWriteBufferHighWatermark (f : flowState) : option flowState :=
  match responseEncoder (stream f) with
  | None => None
  | Some enc =>
      Some {| stream := stream f; highWatermarkCount := highWatermarkCount f;
              watermarkCallbacks := watermarkCallbacks f;
              flowCalls := flowCalls f ++ [DownstreamReadDisable enc false] |}
  end.

(** Watermark events of the downstream write buffer, in sequence. *)
Inductive watermarkEvent := AboveHigh | BelowLow.

Definition onWatermarkEvent (ev : watermarkEvent) (f : flowState) : option flowState :=
  match ev with
  | AboveHigh => OnAboveWriteBufferHighWatermark f
  | BelowLow => OnBelowWriteBufferLowWatermark f
  end.

Fixpoint onWatermarkEvents (evs : list watermarkEvent) (f : flowState)
  : option flowState :=
  match evs with
  | [] => Some f
  | ev :: evs' =>
      match onWatermarkEvent ev f with
      | Some f' => onWatermarkEvents evs' f'
      | None => None
      end
  end.

(** The calls of one watermark event, and its weight in the counter. *)
Definition watermarkCalls (enc : nat) (cb : option nat) (ev : watermarkEvent)
  : list flowCall :=
  match ev with
  | AboveHigh => UpstreamReadDisable enc true
                   :: match cb with Some c => [WatermarkAbove c] | None => [] end
  | BelowLow => UpstreamReadDisable enc false
                  :: match cb with Some c => [WatermarkBelow c] | None => [] end
  end.

Definition watermarkWeight (ev : watermarkEvent) : Z :=
  match ev with
  | AboveHigh => 1
  | BelowLow => -1
  end.

Fixpoint watermarkSum (evs : list watermarkEvent) : Z :=
  match evs with
  | [] => 0
  | ev :: evs' => (watermarkWeight ev + watermarkSum evs')%Z
  end.

(** ** Stream objects and their reuse

    [newActiveStream] takes the stream object from a pool when the pool
    holds one, and [reset] prepares an object for the pool.  Both work on
    the Go struct as a whole, whatever is nil in it, so the struct is laid
    out here in full, one field for each field of the source.  Pointers
    and interfaces whose contents play no part are handles. *)

Module Pooled.

(** The calls of [newActiveStream] on collaborators. *)
Inductive call :=
| AddEventListener (enc : nat)
| StatsDownstreamRequestTotalInc
| StatsDownstreamRequestActiveInc
| ListenerStatsDownstreamRequestTotalInc
| ListenerStatsDownstreamRequestActiveInc.

(** Modelled from the spec: the filter wrappers are declared outside the
    sources.  A wrapper remembers its own index; it is the pair of the
    index and the filter's handle. *)
Definition activeStreamFilter : Type := nat * nat.

Definition newActiveStreamDecoderFilter (idx : nat) (filter : nat) : activeStreamFilter :=
  (idx, filter).

Definition newActiveStreamEncoderFilter (idx : nat) (filter : nat) : activeStreamFilter :=
  (idx, filter).

Record activeStream := mkActiveStream {
  streamId : string;
  proxy : option Proxy;
  route : option Route;
  cluster : option ClusterInfo;
  element : option nat;
  bufferLimit : Z;
  highWatermarkCount : Z;
  timeout : option ProxyTimeout;
  retryState : option RetryState;
  requestInfo : option RequestInfo;
  responseEncoder : option nat;
  upstreamRequest : option UpstreamRequest;
  perRetryTimer : option timer;
  responseTimer : option timer;
  downstreamReqHeaders : option (gmap string string);
  downstreamReqDataBuf : option nat;
  downstreamReqTrailers : option (gmap string string);
  downstreamRespHeaders : option (gmap string string);
  downstreamRespDataBuf : option nat;
  downstreamRespTrailers : option (gmap string string);
  downstreamResponseStarted : bool;
  upstreamRequestSent : bool;
  downstreamRecvDone : bool;
  localProcessDone : bool;
  encoderFiltersStreaming : bool;
  decoderFiltersStreaming : bool;
  filterStage : Z;
  watermarkCallbacks : option nat;
  encoderFilters : list activeStreamFilter;
  decoderFilters : list activeStreamFilter;
  logger : option nat
}.

(** [&activeStream{}]: every field at its zero value. *)
Definition zero : activeStream :=
  {| streamId := EmptyString; proxy := None; route := None; cluster := None;
     element := None; bufferLimit := 0%Z; highWatermarkCount := 0%Z; timeout := None;
     retryState := None; requestInfo := None; responseEncoder := None;
     upstreamRequest := None; perRetryTimer := None; responseTimer := None;
     downstreamReqHeaders := None; downstreamReqDataBuf := None;
     downstreamReqTrailers := None; downstreamRespHeaders := None;
     downstreamRespDataBuf := None; downstreamRespTrailers := None;
     downstreamResponseStarted := false; upstreamRequestSent := false;
     downstreamRecvDone := false; localProcessDone := false;
     encoderFiltersStreaming := false; decoderFiltersStreaming := false;
     filterStage := 0%Z; watermarkCallbacks := None; encoderFilters := [];
     decoderFilters := []; logger := None |}.

Definition set_downstreamReqHeaders (v : option (gmap string string)) (s : activeStream) : activeStream :=
  {| streamId := streamId s; proxy := proxy s; route := route s; cluster := cluster s;
     element := element s; bufferLimit := bufferLimit s;
     highWatermarkCount := highWatermarkCount s; timeout := timeout s;
     retryState := retryState s; requestInfo := requestInfo s;
     responseEncoder := responseEncoder s; upstreamRequest := upstreamRequest s;
     perRetryTimer := perRetryTimer s; responseTimer := responseTimer s;
     downstreamReqHeaders := v; downstreamReqDataBuf := downstreamReqDataBuf s;
     downstreamReqTrailers := downstreamReqTrailers s;
     downstreamRespHeaders := downstreamRespHeaders s;
     downstreamRespDataBuf := downstreamRespDataBuf s;
     downstreamRespTrailers := downstreamRespTrailers s;
     downstreamResponseStarted := downstreamResponseStarted s;
     upstreamRequestSent := upstreamRequestSent s;
     downstreamRecvDone := downstreamRecvDone s;
     localProcessDone := localProcessDone s;
     encoderFiltersStreaming := encoderFiltersStreaming s;
     decoderFiltersStreaming := decoderFiltersStreaming s;
     filterStage := filterStage s; watermarkCallbacks := watermarkCallbacks s;
     encoderFilters := encoderFilters s; decoderFilters := decoderFilters s;
     logger := logger s |}.

Definition set_encoderFilters (v : list activeStreamFilter) (s : activeStream) : activeStream :=
  {| streamId := streamId s; proxy := proxy s; route := route s; cluster := cluster s;
     element := element s; bufferLimit := bufferLimit s;
     highWatermarkCount := highWatermarkCount s; timeout := timeout s;
     retryState := retryState s; requestInfo := requestInfo s;
     responseEncoder := responseEncoder s; upstreamRequest := upstreamRequest s;
     perRetryTimer := perRetryTimer s; responseTimer := responseTimer s;
     downstreamReqHeaders := downstreamReqHeaders s;
     downstreamReqDataBuf := downstreamReqDataBuf s;
     downstreamReqTrailers := downstreamReqTrailers s;
     downstreamRespHeaders := downstreamRespHeaders s;
     downstreamRespDataBuf := downstreamRespDataBuf s;
     downstreamRespTrailers := downstreamRespTrailers s;
     downstreamResponseStarted := downstreamResponseStarted s;
     upstreamRequestSent := upstreamRequestSent s;
     downstreamRecvDone := downstreamRecvDone s;
     localProcessDone := localProcessDone s;
     encoderFiltersStreaming := encoderFiltersStreaming s;
     decoderFiltersStreaming := decoderFiltersStreaming s;
     filterStage := filterStage s; watermarkCallbacks := watermarkCallbacks s;
     encoderFilters := v; decoderFilters := decoderFilters s; logger := logger s |}.

Definition set_decoderFilters (v : list activeStreamFilter) (s : activeStream) : activeStream :=
  {| streamId := streamId s; proxy := proxy s; route := route s; cluster := cluster s;
     element := element s; bufferLimit := bufferLimit s;
     highWatermarkCount := highWatermarkCount s; timeout := timeout s;
     retryState := retryState s; requestInfo := requestInfo s;
     responseEncoder := responseEncoder s; upstreamRequest := upstreamRequest s;
     perRetryTimer := perRetryTimer s; responseTimer := responseTimer s;
     downstreamReqHeaders := downstreamReqHeaders s;
     downstreamReqDataBuf := downstreamReqDataBuf s;
     downstreamReqTrailers := downstreamReqTrailers s;
     downstreamRespHeaders := downstreamRespHeaders s;
     downstreamRespDataBuf := downstreamRespDataBuf s;
     downstreamRespTrailers := downstreamRespTrailers s;
     downstreamResponseStarted := downstreamResponseStarted s;
     upstreamRequestSent := upstreamRequestSent s;
     downstreamRecvDone := downstreamRecvDone s;
     localProcessDone := localProcessDone s;
     encoderFiltersStreaming := encoderFiltersStreaming s;
     decoderFiltersStreaming := decoderFiltersStreaming s;
     filterStage := filterStage s; watermarkCallbacks := watermarkCallbacks s;
     encoderFilters := encoderFilters s; decoderFilters := v; logger := logger s |}.

Definition set_bufferLimit (v : Z) (s : activeStream) : activeStream :=
  {| streamId := streamId s; proxy := proxy s; route := route s; cluster := cluster s;
     element := element s; bufferLimit := v;
     highWatermarkCount := highWatermarkCount s; timeout := timeout s;
     retryState := retryState s; requestInfo := requestInfo s;
     responseEncoder := responseEncoder s; upstreamRequest := upstreamRequest s;
     perRetryTimer := perRetryTimer s; responseTimer := responseTimer s;
     downstreamReqHeaders := downstreamReqHeaders s;
     downstreamReqDataBuf := downstreamReqDataBuf s;
     downstreamReqTrailers := downstreamReqTrailers s;
     downstreamRespHeaders := downstreamRespHeaders s;
     downstreamRespDataBuf := downstreamRespDataBuf s;
     downstreamRespTrailers := downstreamRespTrailers s;
     downstreamResponseStarted := downstreamResponseStarted s;
     upstreamRequestSent := upstreamRequestSent s;
     downstreamRecvDone := downstreamRecvDone s;
     localProcessDone := localProcessDone s;
     encoderFiltersStreaming := encoderFiltersStreaming s;
     decoderFiltersStreaming := decoderFiltersStreaming s;
     filterStage := filterStage s; watermarkCallbacks := watermarkCallbacks s;
     encoderFilters := encoderFilters s; decoderFilters := decoderFilters s;
     logger := logger s |}.

(** [reset].  The source assigns [downstreamRespHeaders] twice and has no
    assignment to [downstreamReqHeaders] nor to [logger]; the filter
    slices are cut to length zero. *)
Definition reset (s : activeStream) : activeStream :=
  {| streamId := EmptyString; proxy := None; route := None; cluster := None;
     element := None; bufferLimit := 0%Z; highWatermarkCount := 0%Z; timeout := None;
     retryState := None; requestInfo := None; responseEncoder := None;
     upstreamRequest := None; perRetryTimer := None; responseTimer := None;
     downstreamReqHeaders := downstreamReqHeaders s; downstreamReqDataBuf := None;
     downstreamReqTrailers := None; downstreamRespHeaders := None;
     downstreamRespDataBuf := None; downstreamRespTrailers := None;
     downstreamResponseStarted := false; upstreamRequestSent := false;
     downstreamRecvDone := false; localProcessDone := false;
     encoderFiltersStreaming := false; decoderFiltersStreaming := false;
     filterStage := 0%Z; watermarkCallbacks := None; encoderFilters := [];
     decoderFilters := []; logger := logger s |}.

Section Constructor.
(** Modelled from the spec: [network.NewRequestInfo] and [log.ByContext]
    are declared outside the sources; they are taken as given. *)
Context (NewRequestInfo : RequestInfo) (ByContext : Proxy → option nat).

(** [newActiveStream]; [taken] is what [activeStreamPool.Take()] returned.
    A fault is [None]: the response encoder is called without a test, and
    the proxy is dereferenced. *)
Definition newActiveStream (id : string) (p : option Proxy)
  (enc : option nat) (taken : option activeStream)
  : option (activeStream * list call) :=
  let stream := match taken with
                | None => zero
                | Some buf => buf
                end in
  match enc with
  | None => None
  | Some e =>
      match p with
      | None => None
      | Some p' =>
          Some (
            {| streamId := id; proxy := p; route := route stream;
               cluster := cluster stream; element := element stream;
               bufferLimit := bufferLimit stream;
               highWatermarkCount := highWatermarkCount stream;
               timeout := timeout stream; retryState := retryState stream;
               requestInfo := Some NewRequestInfo; responseEncoder := enc;
               upstreamRequest := upstreamRequest stream;
               perRetryTimer := perRetryTimer stream;
               responseTimer := responseTimer stream;
               downstreamReqHeaders := downstreamReqHeaders stream;
               downstreamReqDataBuf := downstreamReqDataBuf stream;
               downstreamReqTrailers := downstreamReqTrailers stream;
               downstreamRespHeaders := downstreamRespHeaders stream;
               downstreamRespDataBuf := downstreamRespDataBuf stream;
               downstreamRespTrailers := downstreamRespTrailers stream;
               downstreamResponseStarted := downstreamResponseStarted stream;
               upstreamRequestSent := upstreamRequestSent stream;
               downstreamRecvDone := downstreamRecvDone stream;
               localProcessDone := localProcessDone stream;
               encoderFiltersStreaming := encoderFiltersStreaming stream;
               decoderFiltersStreaming := decoderFiltersStreaming stream;
               filterStage := filterStage stream;
               watermarkCallbacks := watermarkCallbacks stream;
               encoderFilters := encoderFilters stream;
               decoderFilters := decoderFilters stream; logger := ByContext p' |},
                [AddEventListener e;
                 StatsDownstreamRequestTotalInc; StatsDownstreamRequestActiveInc;
                 ListenerStatsDownstreamRequestTotalInc;
                 ListenerStatsDownstreamRequestActiveInc])
      end
  end.

End Constructor.

Definition setBufferLimit (limit : Z) (s : activeStream) : activeStream :=
  set_bufferLimit limit s.

Definition AddStreamDecoderFilter (filter : nat) (s : activeStream) : activeStream :=
  let sf := newActiveStreamDecoderFilter (length (decoderFilters s)) filter in
  set_decoderFilters (decoderFilters s ++ [sf]) s.

Definition AddStreamEncoderFilter (filter : nat) (s : activeStream) : activeStream :=
  let sf := newActiveStreamEncoderFilter (length (encoderFilters s)) filter in
  set_encoderFilters (encoderFilters s ++ [sf]) s.

Definition DownstreamHeaders (s : activeStream) : option (gmap string string) :=
  downstreamReqHeaders s.

(** Registrations of filters, in the order the filter factories make them. *)
Inductive registration :=
| Decoder (filter : nat)
| Encoder (filter : nat).

Definition register (s : activeStream) (reg : registration) : activeStream :=
  match reg with
  | Decoder f => AddStreamDecoderFilter f s
  | Encoder f => AddStreamEncoderFilter f s
  end.

Definition registerAll (regs : list registration) (s : activeStream) : activeStream :=
  foldl register s regs.

Definition decodersOf (regs : list registration) : list nat :=
  omap (λ reg, match reg with Decoder f => Some f | Encoder _ => None end) regs.

Definition encodersOf (regs : list registration) : list nat :=
  omap (λ reg, match reg with Encoder f => Some f | Decoder _ => None end) regs.

(** Each wrapper's index is its position in the chain. *)
Definition indexed (fs : list activeStreamFilter) : Prop :=
  map fst fs = seq 0 (length fs).

End Pooled.

(** * Properties *)

(** Symbolic evaluation of the monadic code: the operations of the monad,
    the modelled collaborators, and the record accessors. *)
Ltac mrun :=
  cbv beta iota zeta delta
    [proxy route cluster timeout retryState requestInfo responseEncoder upstreamRequest
     perRetryTimer responseTimer downstreamReqHeaders downstreamReqDataBuf
     downstreamReqTrailers downstreamRespHeaders downstreamResponseStarted
     upstreamRequestSent downstreamRecvDone localProcessDone encoderFilters decoderFilters
     heap trace set_route set_cluster set_timeout set_retryState set_requestInfo
     set_upstreamRequest set_perRetryTimer set_responseTimer set_downstreamReqHeaders
     set_downstreamReqDataBuf set_downstreamReqTrailers set_downstreamRespHeaders
     set_downstreamResponseStarted set_upstreamRequestSent set_downstreamRecvDone
     set_localProcessDone set_heap set_trace bind ret gets modify panic skip when deref emit
     timer_stop timer_start retryState_reset_call retryState_retry retryState_reset
     upstreamRequest_resetStream upstreamRequest_encodeHeaders upstreamRequest_encodeData
     upstreamRequest_encodeTrailers SetResponseFlag is_nil final returned negb andb orb id
     set_requestEncoder connPool requestEncoder host set_backOffPending retryOn retryPolicy
     retriesRemaining overflowed backOffPending set_ResponseFlags set_BytesReceived
     set_BytesSent set_RouteEntry BytesReceived BytesSent ResponseFlags RouteEntry GlobalTimeout
     TryTimeout poolId poolHost fst snd].

(** ** Rules of framing *)

Section Framing.

Context (F : frame).

Lemma framed_ret {A} (a : A) : framed F (ret a).
Proof. intros s. exists []. simpl. rewrite app_nil_r. auto using kept_refl. Qed.

Lemma framed_gets {A} (f : activeStream → A) : framed F (gets f).
Proof. intros s. exists []. simpl. rewrite app_nil_r. auto using kept_refl. Qed.

Lemma framed_panic {A} : framed F (@panic A).
Proof. intros s. exists []. simpl. rewrite app_nil_r. auto using kept_refl. Qed.

Lemma framed_bind {A B} (m : M A) (k : A → M B) :
  framed F m → (∀ a, framed F (k a)) → framed F (bind m k).
Proof.
  intros Hm Hk s. unfold bind. destruct (Hm s) as (l1 & E1 & P1 & K1).
  destruct (m s) as [a s1|s1]; simpl in *.
  - destruct (Hk a s1) as (l2 & E2 & P2 & K2). exists (l1 ++ l2).
    rewrite E2, E1, app_assoc, forallb_app, P1, P2. eauto using kept_trans.
  - exists l1. auto.
Qed.

Lemma framed_modify (f : activeStream → activeStream) :
  (∀ s, trace (f s) = trace s ∧ kept F s (f s)) → framed F (modify f).
Proof.
  intros H s. exists []. simpl. destruct (H s) as [-> ?]. rewrite app_nil_r. auto.
Qed.

Lemma framed_emit (e : event) : allowed F e = true → framed F (emit e).
Proof.
  intros H s. exists [e]. destruct s; simpl. rewrite H. repeat split.
  apply (kept_trace F (mkActiveStream _ _ _ _ _ _ _ _ _ _ _ _ _ _ _ _ _ _ _ _ _ _)).
Qed.

Lemma framed_when (b : bool) (m : M unit) : framed F m → framed F (when b m).
Proof. intros H. destruct b; [exact H|apply framed_ret]. Qed.

Lemma framed_deref {A} (f : activeStream → option A) : framed F (deref f).
Proof.
  intros s. exists []. unfold deref, bind, gets. destruct (f s); simpl;
    rewrite app_nil_r; auto using kept_refl.
Qed.

Lemma framed_forEach {A} (f : A → M unit) (l : list A) :
  (∀ x, framed F (f x)) → framed F (forEach f l).
Proof.
  intros H. induction l; simpl; [apply framed_ret|].
  apply framed_bind; auto.
Qed.

End Framing.

Lemma framed_weaken (F G : frame) {A} (m : M A) :
  (∀ e, allowed F e = true → allowed G e = true) →
  (∀ s s', kept F s s' → kept G s s') →
  framed F m → framed G m.
Proof.
  intros HP HK H s. destruct (H s) as (l & E & P & K). exists l.
  repeat split; auto. rewrite forallb_forall in *. auto.
Qed.

Ltac frame_step :=
  lazymatch goal with
  | |- framed _ (bind _ _) => apply framed_bind; [|intros ?]
  | |- framed _ (ret _) => apply framed_ret
  | |- framed _ skip => apply framed_ret
  | |- framed _ (gets _) => apply framed_gets
  | |- framed _ panic => apply framed_panic
  | |- framed _ (deref _) => apply framed_deref
  | |- framed _ (when _ _) => apply framed_when
  | |- framed _ (forEach _ _) => apply framed_forEach; intros ?
  | |- framed _ (emit _) => apply framed_emit; reflexivity
  | |- framed _ (modify _) =>
      apply framed_modify; intros []; simpl; repeat split; auto; fail
  | |- framed _ (match ?x with _ => _ end) => destruct x
  end.

Ltac frame := repeat frame_step.

Lemma teardown_localReply {A} (m : M A) :
  framed teardownFrame m → framed localReplyFrame m.
Proof.
  apply framed_weaken.
  - intros []; simpl; unfold isLocalReply; simpl; congruence.
  - intros s s' (_ & H & _). exact H.
Qed.

Lemma bind_emit {A} (e : event) (k : unit → M A) (s : activeStream) :
  bind (emit e) k s = k tt (set_trace (trace s ++ [e]) s).
Proof. reflexivity. Qed.

(** ** cleanUp and cleanStream *)

Lemma cleanUp_nil_upstreamRequest s :
  upstreamRequest s = None → cleanUp s = Panic s.
Proof. intros H. destruct s; simpl in H; subst. reflexivity. Qed.

Lemma cleanUp_framed : framed teardownFrame cleanUp.
Proof.
  intros s.
  destruct s as [p ro cl ti rs ri re r pt rt h1 b1 t1 h2 f1 f2 f3 f4 ef df hp tr].
  destruct r as [[cp enc ho]|], rs as [[ron pol rem ovf bop]|], pt as [pt|], rt as [rt|];
    unfold framed, cleanUp, teardownFrame, teardownKeeps; mrun;
    rewrite <- ?app_assoc;
    (eexists; split; [reflexivity|]) || (exists []; split; [symmetry; apply app_nil_r|]);
    repeat (split; [reflexivity|]); reflexivity.
Qed.

(** One run of [cleanStream] decrements the two active-request counters
    once each and then only tears down. *)
Lemma cleanStream_trace (s : activeStream) :
  ∃ l, trace (final (cleanStream s))
       = trace s ++ StatDownstreamRequestActiveDec :: StatDownstreamRequestActiveDec :: l
       ∧ forallb isTeardown l = true
       ∧ teardownKeeps s (final (cleanStream s)).
Proof.
  unfold cleanStream.
  lazymatch goal with
  | |- context [bind (emit _) (λ _, bind (emit _) (λ _, ?rest))] =>
      assert (H : framed teardownFrame ((λ _ : unit, rest) tt))
        by (unfold upstreamRequest_resetStream; frame; apply cleanUp_framed);
      set (k := λ _ : unit, rest) in *
  end.
  rewrite !bind_emit.
  lazymatch goal with
  | |- context [k tt ?s1] => destruct (H s1) as (l & E & P & K1)
  end.
  exists l. rewrite E. clear E H. subst k.
  destruct s as [p ro cl ti rs ri re r pt rt h1 b1 t1 h2 f1 f2 f3 f4 ef df hp tr].
  unfold teardownKeeps in *. simpl in *.
  split; [rewrite <- !app_assoc; reflexivity|]. split; [exact P|exact K1].
Qed.


Lemma emitted_app {A} (s : activeStream) (o : outcome A) (l : list event) :
  trace (final o) = trace s ++ l → emitted s o = l.
Proof. intros H. unfold emitted. rewrite H. apply drop_app_length. Qed.

Lemma responseEncoder_ResetStream_trace (reason : string) (s : activeStream) :
  ∃ l, trace (final (responseEncoder_ResetStream reason s))
       = trace s ++ DownResetStream reason
           :: StatDownstreamRequestReset :: StatDownstreamRequestReset
           :: StatDownstreamRequestActiveDec :: StatDownstreamRequestActiveDec :: l
       ∧ forallb isTeardown l = true
       ∧ teardownKeeps s (final (responseEncoder_ResetStream reason s)).
Proof.
  unfold responseEncoder_ResetStream, OnResetStream. rewrite !bind_emit.
  lazymatch goal with
  | |- context [cleanStream ?s1] => destruct (cleanStream_trace s1) as (l & E & P & K1)
  end.
  exists l. rewrite E. clear E.
  destruct s as [p ro cl ti rs ri re r pt rt h1 b1 t1 h2 f1 f2 f3 f4 ef df hp tr].
  unfold teardownKeeps in *. simpl in *.
  split; [rewrite <- !app_assoc; reflexivity|]. split; [exact P|exact K1].
Qed.

(** ** endStream *)

Lemma endStream_abnormal (K : TypesConsts) (s : activeStream) :
  abnormalEnd s = true →
  endStream K s
  = responseEncoder_ResetStream (StreamLocalReset K) (set_localProcessDone true s).
Proof.
  intros H. destruct s as [p ro cl ti rs ri re r pt rt h1 b1 t1 h2 f1 f2 f3 f4 ef df hp tr].
  unfold abnormalEnd in H. simpl in H. unfold endStream. mrun.
  destruct re, f3, f4; try discriminate H; mrun;
    lazymatch goal with
    | |- context [responseEncoder_ResetStream ?r ?s1] =>
        destruct (responseEncoder_ResetStream r s1) as [[] ?|?]; reflexivity
    end.
Qed.

Lemma endStream_normal (K : TypesConsts) (s : activeStream) :
  abnormalEnd s = false → endStream K s = cleanStream s.
Proof.
  intros H. destruct s as [p ro cl ti rs ri re r pt rt h1 b1 t1 h2 f1 f2 f3 f4 ef df hp tr].
  unfold abnormalEnd in H. simpl in H. unfold endStream. mrun.
  destruct re, f3, f4; try discriminate H; reflexivity.
Qed.

(** C6.  [endStream], on every stream.  When the response encoder is
    non-nil and the downstream request is not received to its end or the
    local processing is not done, it does what resetting the downstream
    stream with [StreamLocalReset] does on the stream marked
    [localProcessDone], and nothing more: the reset is its first call,
    the cleanup of the stream (told by the two decrements of the
    active-request counters) runs once, inside the reset, and the mark is
    still set at the end.  In every other case it is [cleanStream], and
    makes no reset. *)
Theorem C6_endStream (K : TypesConsts) (s : activeStream) :
  if abnormalEnd s then
    endStream K s
    = responseEncoder_ResetStream (StreamLocalReset K) (set_localProcessDone true s)
    ∧ localProcessDone (final (endStream K s)) = true
    ∧ ∃ l, emitted s (endStream K s)
           = DownResetStream (StreamLocalReset K)
               :: StatDownstreamRequestReset :: StatDownstreamRequestReset
               :: StatDownstreamRequestActiveDec :: StatDownstreamRequestActiveDec :: l
           ∧ forallb isTeardown l = true
  else
    endStream K s = cleanStream s
    ∧ localProcessDone (final (endStream K s)) = localProcessDone s
    ∧ ∃ l, emitted s (endStream K s)
           = StatDownstreamRequestActiveDec :: StatDownstreamRequestActiveDec :: l
           ∧ forallb isTeardown l = true.
Proof.
  destruct (abnormalEnd s) eqn:E.
  - rewrite (endStream_abnormal K s E). split; [reflexivity|].
    destruct (responseEncoder_ResetStream_trace (StreamLocalReset K)
                (set_localProcessDone true s)) as (l & Et & P & (K1 & _)).
    split.
    + rewrite K1. destruct s; reflexivity.
    + exists l. split; [|exact P]. apply emitted_app. rewrite Et.
      destruct s; reflexivity.
  - rewrite (endStream_normal K s E). split; [reflexivity|].
    destruct (cleanStream_trace s) as (l & Et & P & (K1 & _)).
    split; [exact K1|]. exists l. split; [|exact P]. apply emitted_app. exact Et.
Qed.

(** ** Hijack replies *)

Lemma cleanStream_localReply : framed localReplyFrame cleanStream.
Proof.
  unfold cleanStream, upstreamRequest_resetStream. frame.
  apply teardown_localReply, cleanUp_framed.
Qed.

Lemma endStream_localReply (K : TypesConsts) : framed localReplyFrame (endStream K).
Proof.
  unfold endStream, responseEncoder_ResetStream, OnResetStream. frame;
    apply cleanStream_localReply.
Qed.

Lemma encodeHeaders_localReply (K : TypesConsts) headers endStream_ :
  framed localReplyFrame (encodeHeaders K headers endStream_).
Proof.
  unfold encodeHeaders, doEncodeHeaders, encodeHeaderFilters. frame.
  apply endStream_localReply.
Qed.

Lemma sendHijackReply_localReply (K : TypesConsts) code headers :
  framed localReplyFrame (sendHijackReply K code headers).
Proof. unfold sendHijackReply. apply encodeHeaders_localReply. Qed.

Lemma OnDecodeError_localReply (K : TypesConsts) err headers :
  framed localReplyFrame (OnDecodeError K err headers).
Proof.
  unfold OnDecodeError. repeat case_decide; apply sendHijackReply_localReply.
Qed.

Lemma sendHijackReply_headers (K : TypesConsts) code headers :
  sendHijackReply K code headers
  = encodeHeaders K (Some (hijackHeaders K code headers)) true.
Proof. destruct headers; reflexivity. Qed.

(** When no encoder filter holds it back and the response encoder is
    there, the reply is the first thing handed to the downstream codec,
    with [endStream] set. *)
Lemma sendHijackReply_emits (K : TypesConsts) code headers s :
  encoderFiltersPass s (Some (hijackHeaders K code headers)) true →
  is_nil (responseEncoder s) = false →
  ∃ l, emitted s (sendHijackReply K code headers s)
       = DownEncodeHeaders (Some (hijackHeaders K code headers)) true :: l.
Proof.
  intros Hp He. rewrite sendHijackReply_headers.
  unfold encodeHeaders, doEncodeHeaders, encodeHeaderFilters, encoderFiltersPass in *.
  destruct s as [p ro cl ti rs ri re r pt rt h1 b1 t1 h2 f1 f2 f3 f4 ef df hp tr].
  simpl in Hp, He. destruct re as [re|]; [|discriminate He].
  mrun. rewrite Hp.
  lazymatch goal with
  | |- context [endStream K ?s1] =>
      destruct (endStream_localReply K s1) as (l & E & _ & _);
      destruct (endStream K s1) as [[] s2|s2]
  end; simpl in E; exists l; apply emitted_app; simpl; rewrite E, <- app_assoc;
    reflexivity.
Qed.

(** C9.  [OnDecodeError] turns the error into a hijack reply by its kind:
    the codec exception gives [CodecExceptionCode], the deserialize
    exception [DeserialExceptionCode], any other error [UnknownCode].
    The code is written, in decimal, into the status header of the reply;
    when no encoder filter holds the reply back it is the first thing
    handed to the downstream codec, with [endStream] set.  Whatever the
    error and whether the cleanup that follows returns or faults, nothing
    is encoded towards an upstream and no upstream request comes into
    being: the stream has one afterwards exactly when it had one before
    (the cleanup resets an attempt that was already there). *)
Theorem C9_OnDecodeError (K : TypesConsts)
  (Hkinds : CodecException K ≠ DeserializeException K)
  (headers : option (gmap string string)) (s : activeStream) :
  OnDecodeError K (CodecException K) headers s
  = sendHijackReply K (CodecExceptionCode K) headers s
  ∧ OnDecodeError K (DeserializeException K) headers s
    = sendHijackReply K (DeserialExceptionCode K) headers s
  ∧ (∀ err, err ≠ CodecException K → err ≠ DeserializeException K →
       OnDecodeError K err headers s = sendHijackReply K (UnknownCode K) headers s)
  ∧ (∀ code,
       hijackHeaders K code headers !! HeaderStatus K = Some (Itoa code)
       ∧ (encoderFiltersPass s (Some (hijackHeaders K code headers)) true →
          is_nil (responseEncoder s) = false →
          ∃ l, emitted s (sendHijackReply K code headers s)
               = DownEncodeHeaders (Some (hijackHeaders K code headers)) true :: l))
  ∧ ∀ err,
      forallb isLocalReply (emitted s (OnDecodeError K err headers s)) = true
      ∧ noRequestCreated s (final (OnDecodeError K err headers s)).
Proof.
  split; [unfold OnDecodeError; rewrite decide_True by reflexivity; reflexivity|].
  split; [unfold OnDecodeError; rewrite decide_False by auto;
          rewrite decide_True by reflexivity; reflexivity|].
  split; [intros err H1 H2; unfold OnDecodeError; rewrite !decide_False by auto;
          reflexivity|].
  split.
  - intros code. split; [apply lookup_insert_eq|]. apply sendHijackReply_emits.
  - intros err. destruct (OnDecodeError_localReply K err headers s) as (l & E & P & K1).
    rewrite (emitted_app _ _ _ E). split; [exact P|exact K1].
Qed.

Lemma C9_OnDecodeError_witness :
  OnDecodeError Ex.consts "codec exception occurs" Ex.reqHeaders Ex.fresh
  = sendHijackReply Ex.consts 0 Ex.reqHeaders Ex.fresh
  ∧ OnDecodeError Ex.consts "connection lost" Ex.reqHeaders Ex.fresh
    = sendHijackReply Ex.consts 2 Ex.reqHeaders Ex.fresh
  ∧ ∃ l, emitted Ex.fresh (sendHijackReply Ex.consts 3 Ex.reqHeaders Ex.fresh)
         = DownEncodeHeaders (Some (hijackHeaders Ex.consts 3 Ex.reqHeaders)) true :: l.
Proof.
  assert (H : CodecException Ex.consts ≠ DeserializeException Ex.consts) by discriminate.
  destruct (C9_OnDecodeError Ex.consts H Ex.reqHeaders Ex.fresh) as (A & _ & C & D & _).
  split; [exact A|]. split; [apply C; discriminate|].
  apply (D 3%Z); reflexivity.
Defined.

(** ** Faults of the cleanup *)

(** C3.  [cleanUp] faults whenever the upstream request is nil, and
    whenever the retry state is nil.  Every hijack reply made before an
    upstream attempt exists ends there: with no route, with an unknown
    cluster, with no healthy pool, and on a codec error, the reply is
    handed to the downstream codec and the cleanup that follows faults on
    the nil upstream request. *)
Theorem C3_cleanUp_nil_dereference :
  (∀ s, returned (cleanUp (set_upstreamRequest None s)) = false)
  ∧ (∀ s, returned (cleanUp (set_retryState None s)) = false)
  ∧ (let o := OnDecodeHeaders Ex.consts Ex.unroutedHeaders true Ex.fresh in
     returned o = false ∧ upstreamRequest (final o) = None
     ∧ head (trace (final o))
       = Some (DownEncodeHeaders (Some (hijackHeaders Ex.consts 404 Ex.unroutedHeaders)) true))
  ∧ (let o := OnDecodeHeaders Ex.consts Ex.unroutedHeaders false Ex.fresh in
     returned o = false ∧ upstreamRequest (final o) = None
     ∧ head (trace (final o))
       = Some (DownEncodeHeaders (Some (hijackHeaders Ex.consts 404 Ex.unroutedHeaders)) true))
  ∧ (let o := OnDecodeHeaders Ex.consts Ex.reqHeaders true (Ex.freshOn Ex.noClusterProxy) in
     returned o = false ∧ upstreamRequest (final o) = None
     ∧ head (trace (final o))
       = Some (DownEncodeHeaders (Some (hijackHeaders Ex.consts 404 Ex.reqHeaders)) true))
  ∧ (let o := OnDecodeHeaders Ex.consts Ex.reqHeaders true (Ex.freshOn Ex.noPoolProxy) in
     returned o = false ∧ upstreamRequest (final o) = None
     ∧ head (trace (final o))
       = Some (DownEncodeHeaders (Some (hijackHeaders Ex.consts 502 Ex.reqHeaders)) true))
  ∧ (let o := OnDecodeError Ex.consts "codec exception occurs" Ex.reqHeaders Ex.fresh in
     returned o = false ∧ upstreamRequest (final o) = None
     ∧ head (trace (final o))
       = Some (DownEncodeHeaders (Some (hijackHeaders Ex.consts 0 Ex.reqHeaders)) true)).
Proof.
  split; [intros []; reflexivity|].
  split; [intros s; destruct s as [? ? ? ? ? ? ? [[]|]]; reflexivity|].
  repeat split; vm_compute; reflexivity.
Qed.

(** ** The retry path *)


(** C10.  The per-try timer fires during the back-off of a retry.  A
    request is sent (both timers armed), the upstream answers 503 and the
    retry gate asks for a retry: [setupRetry] resets the attempt and nils
    the upstream request, stopping no timer, so the per-try timer is
    still armed while the back-off is pending and the response has not
    started.  When it fires, [onPerTryTimeout] faults on the nil upstream
    request.  More generally [onPerTryTimeout] faults on every stream
    without an upstream request whose response has not started, whereas
    [onResponseTimeout] gets past its own use of the upstream request. *)
Theorem C10_perTry_timer_during_backoff :
  (let o := (OnDecodeHeaders Ex.consts Ex.reqHeaders true ;;;
             onUpstreamHeaders Ex.consts Ex.resp503 false) Ex.fresh in
   returned o = true
   ∧ upstreamRequest (final o) = None
   ∧ downstreamResponseStarted (final o) = false
   ∧ backOffPending <$> retryState (final o) = Some true
   ∧ perRetryTimer (final o) = Some Ex.perTryTimer
   ∧ filter isTimerStop (trace (final o)) = []
   ∧ returned (onPerTryTimeout Ex.consts (final o)) = false)
  ∧ (∀ K s, returned (onPerTryTimeout K
                        (set_downstreamResponseStarted false (set_upstreamRequest None s)))
            = false)
  ∧ (∀ K s c, emitted (set_cluster (Some c) (set_upstreamRequest None s))
                (onResponseTimeout K (set_cluster (Some c) (set_upstreamRequest None s)))
              = [StatClusterTimeout c]).
Proof.
  split; [vm_compute; repeat split; reflexivity|].
  split.
  - intros K s. destruct s as [p ro [c|] ti rs ri re r pt rt]; reflexivity.
  - intros K s c. unfold emitted.
    destruct s as [p ro cl ti rs ri re r pt rt h1 b1 t1 h2 f1 f2 f3 f4 ef df hp tr].
    unfold onResponseTimeout, onUpstreamReset, cleanUp. mrun.
    apply drop_app_length.
Qed.

Ltac mrun_all :=
  unfold onUpstreamRequestSent, setupPerTryTimeout, bufClone, NewIoBuffer, bufReadFrom,
    bufLen in *; mrun.

(** What [doRetry] passes as [endStream] with the re-encoded headers,
    once it has its pool: whether a buffered body and trailers both
    exist. *)
Lemma doRetry_headers_endStream (K : TypesConsts) (s : activeStream) (pool : ConnectionPool) :
  poolAcquired K s pool →
  ∃ r l, emitted s (doRetry K s)
         = UpEncodeHeaders r (downstreamReqHeaders s)
             (negb (is_nil (downstreamReqDataBuf s))
              && negb (is_nil (downstreamReqTrailers s))) :: l.
Proof.
  intros (c & ci & Hc & Hg & Hp).
  destruct s as [p ro cl ti rs ri re r pt rt h1 b1 t1 h2 f1 f2 f3 f4 ef df hp tr].
  simpl in Hc, Hg, Hp. subst cl.
  unfold emitted, doRetry, initializeUpstreamConnectionPool. mrun.
  rewrite Hg. mrun. rewrite Hp. mrun_all.
  destruct b1 as [b|], t1 as [t|], ti as [[g y]|]; mrun_all;
    repeat lazymatch goal with
      | |- context [if ?b then _ else _] => destruct b
      | |- context [match ?x with Some _ => _ | None => _ end] => destruct x
      end; mrun;
    rewrite <- ?app_assoc; rewrite drop_app_length; eexists; eexists; reflexivity.
Qed.

(** C1.  The [endStream] that [doRetry] passes with the re-encoded
    headers.  For a request that is headers only (no buffered body, no
    trailers) the retry sends the headers with [endStream] false, and
    sends nothing after them.  For a request with a body and trailers the
    retry sends the headers with [endStream] true, and then the body and
    the trailers. *)
Theorem C1_doRetry_headers_endStream :
  (let o := (OnDecodeHeaders Ex.consts Ex.reqHeaders true ;;;
             onUpstreamHeaders Ex.consts Ex.resp503 true) Ex.fresh in
   returned o = true
   ∧ downstreamReqDataBuf (final o) = None
   ∧ downstreamReqTrailers (final o) = None
   ∧ returned (doRetry Ex.consts (final o)) = true
   ∧ headerEndStreams (emitted (final o) (doRetry Ex.consts (final o))) = [false]
   ∧ length (filter isUpstreamEncode (emitted (final o) (doRetry Ex.consts (final o)))) = 1)
  ∧ (let o := (OnDecodeHeaders Ex.consts Ex.reqHeaders false ;;;
               OnDecodeData 0 false ;;;
               OnDecodeTrailers ∅ ;;;
               onUpstreamHeaders Ex.consts Ex.resp503 true) freshWithBody in
     returned o = true
     ∧ is_nil (downstreamReqDataBuf (final o)) = false
     ∧ is_nil (downstreamReqTrailers (final o)) = false
     ∧ returned (doRetry Ex.consts (final o)) = true
     ∧ headerEndStreams (emitted (final o) (doRetry Ex.consts (final o))) = [true]
     ∧ length (filter isUpstreamEncode (emitted (final o) (doRetry Ex.consts (final o)))) = 3).
Proof. split; vm_compute; repeat split; reflexivity. Qed.

(** C2.  An upstream reset after the response has started.  The request
    is sent, the upstream answers 200 and the headers go downstream; then
    the upstream stream is reset by a connection failure.
    [onUpstreamReset] consults the retry gate, which asks for a retry: the
    call returns having made no call at all (no cleanup, no reset of the
    downstream response), with the upstream request nil, the back-off
    pending and both timers armed, and when the back-off expires the
    headers are encoded to a new upstream attempt.  Before the response
    has started the same reset does not consult the gate: the budget is
    untouched and the stream ends with the hijack reply 502. *)
Theorem C2_onUpstreamReset_after_response_started :
  (let o := (OnDecodeHeaders Ex.consts Ex.reqHeaders true ;;;
             onUpstreamHeaders Ex.consts Ex.resp200 false) Ex.fresh in
   let o' := onUpstreamReset Ex.consts UpstreamReset "ConnectionFailed" (final o) in
   returned o = true
   ∧ downstreamResponseStarted (final o) = true
   ∧ last (trace (final o)) = Some (DownEncodeHeaders Ex.resp200 false)
   ∧ returned o' = true
   ∧ emitted (final o) o' = []
   ∧ upstreamRequest (final o') = None
   ∧ backOffPending <$> retryState (final o') = Some true
   ∧ perRetryTimer (final o') = Some Ex.perTryTimer
   ∧ responseTimer (final o') = Some Ex.globalTimer
   ∧ headerEndStreams (emitted (final o') (onRetryBackOff Ex.consts (final o'))) = [false])
  ∧ (let o := OnDecodeHeaders Ex.consts Ex.reqHeaders true Ex.fresh in
     let o' := onUpstreamReset Ex.consts UpstreamReset "ConnectionFailed" (final o) in
     returned o = true
     ∧ downstreamResponseStarted (final o) = false
     ∧ retriesRemaining <$> retryState (final o') = Some 1
     ∧ backOffPending <$> retryState (final o') = Some false
     ∧ filter isDownReset (emitted (final o) o') = []
     ∧ emitted (final o) o' !! 2
       = Some (DownEncodeHeaders (Some (hijackHeaders Ex.consts 502 Ex.reqHeaders)) true)).
Proof. split; vm_compute; repeat split; reflexivity. Qed.

(** ** Decode events *)

Lemma onDecodeEvent_dropped (ev : decodeEvent) (s : activeStream) :
  localProcessDone s = true →
  ∃ s', onDecodeEvent ev s = Ok tt s'
        ∧ localProcessDone s' = true
        ∧ trace s' = trace s
        ∧ upstreamRequest s' = upstreamRequest s
        ∧ upstreamRequestSent s' = upstreamRequestSent s
        ∧ downstreamReqDataBuf s' = downstreamReqDataBuf s
        ∧ downstreamReqTrailers s' = downstreamReqTrailers s
        ∧ heap s' = heap s.
Proof.
  intros H. destruct s as [p ro cl ti rs ri re r pt rt h1 b1 t1 h2 f1 f2 f3 f4 ef df hp tr].
  simpl in H. subst f4.
  destruct ev; unfold onDecodeEvent, OnDecodeData, OnDecodeTrailers, doDecodeData,
    doDecodeTrailers, bufLen; mrun; eexists; (split; [reflexivity|]);
    repeat (split; [reflexivity|]); reflexivity.
Qed.

(** C8.  Once [localProcessDone] is set, every later decode event of
    data or trailers, fresh from the codec or resumed by a filter, is
    dropped: the whole sequence returns, nothing is called (so nothing is
    forwarded to the upstream), nothing is retained, and
    [localProcessDone] is still set at the end. *)
Theorem C8_late_decode_events_dropped (evs : list decodeEvent) (s : activeStream) :
  localProcessDone s = true →
  ∃ s', onDecodeEvents evs s = Ok tt s'
        ∧ localProcessDone s' = true
        ∧ trace s' = trace s
        ∧ upstreamRequest s' = upstreamRequest s
        ∧ upstreamRequestSent s' = upstreamRequestSent s
        ∧ downstreamReqDataBuf s' = downstreamReqDataBuf s
        ∧ downstreamReqTrailers s' = downstreamReqTrailers s
        ∧ heap s' = heap s.
Proof.
  revert s. induction evs as [|ev evs IH]; intros s H.
  - exists s. repeat (split; [reflexivity || exact H|]). reflexivity.
  - destruct (onDecodeEvent_dropped ev s H) as (s1 & E1 & L1 & T1 & U1 & S1 & B1 & R1 & H1).
    destruct (IH s1 L1) as (s2 & E2 & L2 & T2 & U2 & S2 & B2 & R2 & H2).
    exists s2. simpl. unfold bind. rewrite E1, E2.
    repeat split; congruence.
Qed.

Lemma C8_late_decode_events_dropped_witness :
  ∃ s', onDecodeEvents [DecodeData 0 false; ContinueDecodeData 0 0 true; DecodeTrailers ∅]
          (set_localProcessDone true freshWithBody) = Ok tt s'
        ∧ localProcessDone s' = true
        ∧ trace s' = trace (set_localProcessDone true freshWithBody)
        ∧ upstreamRequest s' = upstreamRequest (set_localProcessDone true freshWithBody)
        ∧ upstreamRequestSent s' = upstreamRequestSent (set_localProcessDone true freshWithBody)
        ∧ downstreamReqDataBuf s'
          = downstreamReqDataBuf (set_localProcessDone true freshWithBody)
        ∧ downstreamReqTrailers s'
          = downstreamReqTrailers (set_localProcessDone true freshWithBody)
        ∧ heap s' = heap (set_localProcessDone true freshWithBody).
Proof. apply C8_late_decode_events_dropped. reflexivity. Defined.

(** ** The request body and its clone *)

Lemma bufContent_app_l (h k : list (list Byte.byte)) (b : nat) :
  b < length h → bufContent (h ++ k) b = bufContent h b.
Proof. intros H. unfold bufContent. rewrite lookup_app_l by exact H. reflexivity. Qed.

Lemma bufContent_app_length (h k : list (list Byte.byte)) (c : list Byte.byte) :
  bufContent (h ++ c :: k) (length h) = c.
Proof. unfold bufContent. rewrite list_lookup_middle by reflexivity. reflexivity. Qed.

Lemma bufContent_insert_eq (h : list (list Byte.byte)) (b : nat) (c : list Byte.byte) :
  b < length h → bufContent (<[b := c]> h) b = c.
Proof. intros H. unfold bufContent. rewrite list_lookup_insert_eq by exact H. reflexivity. Qed.

Lemma bufContent_insert_ne (h : list (list Byte.byte)) (b b' : nat) (c : list Byte.byte) :
  b' ≠ b → bufContent (<[b' := c]> h) b = bufContent h b.
Proof. intros H. unfold bufContent. rewrite list_lookup_insert_ne by exact H. reflexivity. Qed.

Lemma bufContent_app_S (h k : list (list Byte.byte)) (c d : list Byte.byte) :
  bufContent (h ++ c :: d :: k) (S (length h)) = d.
Proof.
  unfold bufContent. rewrite (lookup_app_r h) by lia.
  replace (S (length h) - length h) with 1 by lia. reflexivity.
Qed.

Ltac len_solve := rewrite ?length_insert, ?length_app; cbn [length]; lia.

Ltac heap_simpl :=
  cbn [app]; rewrite ?length_app; cbn [length]; rewrite ?Nat.add_1_r;
  repeat first
    [ rewrite bufContent_insert_ne by lia
    | rewrite bufContent_insert_eq by len_solve
    | rewrite bufContent_app_length
    | rewrite bufContent_app_S
    | rewrite bufContent_app_l by len_solve ].

Lemma doDecodeData_buffering (from : option nat) (data : nat) (endStream_ : bool)
  (s : activeStream) (r : UpstreamRequest) :
  localProcessDone s = false →
  runFilters from (decoderFilters s) (λ f, onData f data endStream_) = false →
  upstreamRequest s = Some r →
  is_nil (timeout s) = false →
  data < length (heap s) →
  (∀ b, downstreamReqDataBuf s = Some b → b < length (heap s)) →
  bufferingAtDispatch from data endStream_ s r.
Proof.
  intros H1 H2 H3 H4 H5 H6.
  destruct s as [p ro cl ti rs ri re r0 pt rt h1 b1 t1 h2 f1 f2 f3 f4 ef df hp tr].
  simpl in H1, H2, H3, H4, H5, H6. subst f4 r0.
  destruct ti as [[g y]|]; [clear H4|discriminate H4].
  unfold bufferingAtDispatch, retryPossible, retainedBefore, emitted, doDecodeData,
    decodeDataFilters. mrun.
  rewrite H2.
  destruct rs as [[[] pol rem ovf bop]|], endStream_; mrun_all.
  all: destruct pt as [pt|], rt as [rt|], (0 <? y)%Z; mrun; destruct (0 <? g)%Z; mrun.
  all: try (rewrite <- ?app_assoc; rewrite drop_app_length; simpl;
            repeat (split; [reflexivity|]); reflexivity).
  all: destruct b1 as [b|];
       [specialize (H6 b eq_refl); destruct (decide (b = data)) as [->|Hb]|];
       rewrite ?decide_True by reflexivity; rewrite ?decide_False by congruence; mrun;
       rewrite <- ?app_assoc; rewrite drop_app_length; heap_simpl;
       (split; [reflexivity|]); (split; [reflexivity|]); (split; [reflexivity|]);
       eexists; (split; [reflexivity|]); (split; [lia|]); heap_simpl; reflexivity.
Qed.

Lemma doRetry_body_clone (K : TypesConsts) (s : activeStream) (pool : ConnectionPool)
  (b : nat) :
  poolAcquired K s pool →
  downstreamReqDataBuf s = Some b →
  b < length (heap s) →
  retryBodyFromClone K s b.
Proof.
  intros (c & ci & Hc & Hg & Hp) Hb Hlt.
  destruct s as [p ro cl ti rs ri re r pt rt h1 b1 t1 h2 f1 f2 f3 f4 ef df hp tr].
  simpl in Hc, Hg, Hp, Hb, Hlt. subst cl b1.
  unfold retryBodyFromClone, emitted, doRetry, initializeUpstreamConnectionPool. mrun.
  rewrite Hg. mrun. rewrite Hp. mrun_all.
  destruct t1 as [t|], ti as [[g y]|], pt as [pt|]; mrun;
    try destruct (0 <? y)%Z; mrun;
    rewrite <- ?app_assoc; rewrite drop_app_length; heap_simpl;
    (split; [reflexivity|]); (split; [lia|]); (split; reflexivity).
Qed.

(** C7, as it stands, fails on a stream whose local processing is done:
    a retry is possible and there is a live upstream request, yet the
    decoded data buffer is neither retained nor forwarded, by clone or as
    it is. *)
Lemma C7_counterexample :
  let s := set_localProcessDone true
             (final (OnDecodeHeaders Ex.consts Ex.reqHeaders false freshWithBody)) in
  retryPossible s = true
  ∧ upstreamRequest s = Some Ex.attempt
  ∧ doDecodeData None 0 false s = Ok tt s
  ∧ emitted s (doDecodeData None 0 false s) = []
  ∧ downstreamReqDataBuf (final (doDecodeData None 0 false s)) = None.
Proof. vm_compute. repeat split; reflexivity. Qed.

(** C7, amended.  For every decoded data buffer that reaches the dispatch
    to the upstream (the local processing is not done, no decode filter
    stops the traversal) on a stream with a live upstream request, the
    bytes are retained in [downstreamReqDataBuf] and only a clone is
    encoded upstream exactly when a retry is possible (the retry state is
    non-nil and its [retryOn] is set); otherwise the buffer itself is
    encoded upstream and nothing is retained.  In [doRetry], once the
    pool is acquired, the buffered body is encoded from a clone and the
    retained buffer keeps its bytes. *)
Theorem C7_request_body_buffering :
  (∀ (from : option nat) (data : nat) (endStream_ : bool) (s : activeStream)
     (r : UpstreamRequest),
     localProcessDone s = false →
     runFilters from (decoderFilters s) (λ f, onData f data endStream_) = false →
     upstreamRequest s = Some r →
     is_nil (timeout s) = false →
     data < length (heap s) →
     (∀ b, downstreamReqDataBuf s = Some b → b < length (heap s)) →
     bufferingAtDispatch from data endStream_ s r)
  ∧ (∀ (K : TypesConsts) (s : activeStream) (pool : ConnectionPool) (b : nat),
       poolAcquired K s pool →
       downstreamReqDataBuf s = Some b →
       b < length (heap s) →
       retryBodyFromClone K s b).
Proof. split; [exact doDecodeData_buffering|exact doRetry_body_clone]. Qed.

Lemma C7_request_body_buffering_witness :
  bufferingAtDispatch None 0 false
    (final (OnDecodeHeaders Ex.consts Ex.reqHeaders false freshWithBody)) Ex.attempt
  ∧ retryBodyFromClone Ex.consts
      (final ((OnDecodeHeaders Ex.consts Ex.reqHeaders false ;;;
               OnDecodeData 0 true ;;;
               onUpstreamHeaders Ex.consts Ex.resp503 true) freshWithBody)) 2.
Proof.
  destruct C7_request_body_buffering as [A B]. split.
  - apply A.
    + reflexivity.
    + reflexivity.
    + reflexivity.
    + reflexivity.
    + vm_compute. lia.
    + intros b H. vm_compute in H. discriminate H.
  - apply (B _ _ Ex.pool).
    + exists (mkClusterInfo "server_1"), (mkClusterInfo "server_1").
      repeat split; reflexivity.
    + reflexivity.
    + vm_compute. lia.
Defined.

(** ** The guards of the retry gate and of the cleanup, on every stream *)

(** Once the response has started, a reset that is not the global
    timeout consults the retry gate; when the gate asks for a retry and
    the request was sent, [onUpstreamReset] gives up the upstream request
    and returns, with no cleanup and no call. *)
Lemma onUpstreamReset_retries_after_start (K : TypesConsts) (urtype : UpstreamResetType)
  (reason : string) (s : activeStream) (rs : RetryState) :
  urtype ≠ UpstreamGlobalTimeout →
  downstreamResponseStarted s = true →
  upstreamRequestSent s = true →
  retryState s = Some rs →
  fst (retry rs None reason) = ShouldRetry →
  onUpstreamReset K urtype reason s
  = Ok tt (set_upstreamRequest None
             (set_retryState (Some (snd (retry rs None reason))) s)).
Proof.
  intros Hu Hs Hsent Hrs Hv.
  destruct s as [p ro cl ti rs0 ri re r pt rt h1 b1 t1 h2 f1 f2 f3 f4 ef df hp tr].
  simpl in Hs, Hsent, Hrs. subst f1 f2 rs0.
  destruct (retry rs None reason) as [v rs'] eqn:E. simpl in Hv. subst v.
  unfold onUpstreamReset, setupRetry. destruct urtype; [|contradiction|];
    mrun; rewrite E; reflexivity.
Qed.

(** Before the response has started the gate is not consulted: the
    outcome does not depend on the retry policy. *)
Lemma onUpstreamReset_no_gate_before_start (K : TypesConsts) (urtype : UpstreamResetType)
  (reason : string) (s : activeStream) :
  downstreamResponseStarted s = false →
  onUpstreamReset K urtype reason s
  = (cleanUp ;;;
     code <~ (match urtype with
              | UpstreamGlobalTimeout | UpstreamPerTryTimeout =>
                  SetResponseFlag (UpstreamRequestTimeout K) ;;;
                  ret (TimeoutExceptionCode K)
              | _ =>
                  p <~ gets proxy ;;
                  SetResponseFlag (streamResetReasonToResponseFlag p reason) ;;;
                  ret (NoHealthUpstreamCode K)
              end) ;;
     hs <~ gets downstreamReqHeaders ;;
     sendHijackReply K code hs) s.
Proof.
  intros Hs.
  destruct s as [p ro cl ti rs ri re r pt rt h1 b1 t1 h2 f1 f2 f3 f4 ef df hp tr].
  simpl in Hs. subst f1.
  unfold onUpstreamReset, cleanUp.
  destruct urtype, r as [[]|], rs as [[]|], pt, rt; mrun; reflexivity.
Qed.

(** A hijack reply on a stream without an upstream request never
    returns, unless an encoder filter holds it back. *)
Lemma sendHijackReply_faults_without_attempt (K : TypesConsts) (code : Z)
  (headers : option (gmap string string)) (s : activeStream) :
  upstreamRequest s = None →
  encoderFiltersPass s (Some (hijackHeaders K code headers)) true →
  returned (sendHijackReply K code headers s) = false.
Proof.
  intros Hr Hp. rewrite sendHijackReply_headers.
  destruct s as [p ro cl ti rs ri re r pt rt h1 b1 t1 h2 f1 f2 f3 f4 ef df hp tr].
  simpl in Hr. unfold encoderFiltersPass in Hp. simpl in Hp. subst r.
  unfold encodeHeaders, doEncodeHeaders, encodeHeaderFilters, endStream,
    responseEncoder_ResetStream, OnResetStream, cleanStream, cleanUp.
  mrun. rewrite Hp. destruct re, f3; mrun; reflexivity.
Qed.

(** * Further properties of the stream *)

(** ** Release of a live stream *)

Lemma forEach_emits {A} (f : A → M unit) (g : A → event) (l : list A) (s : activeStream) :
  (∀ x s', f x s' = Ok tt (set_trace (trace s' ++ [g x]) s')) →
  forEach f l s = Ok tt (set_trace (trace s ++ map g l) s).
Proof.
  intros Hf. revert s. induction l as [|x l IH]; intros s.
  - simpl. rewrite app_nil_r. destruct s; reflexivity.
  - simpl. unfold bind. rewrite Hf, IH. destruct s; simpl.
    rewrite <- app_assoc. reflexivity.
Qed.

Lemma cleanUp_live (s : activeStream) (r : UpstreamRequest) (rs : RetryState) :
  upstreamRequest s = Some r → retryState s = Some rs →
  cleanUp s = Ok tt (cleanedUp s r rs).
Proof.
  intros Hr Hrs.
  destruct s as [p ro cl ti rs0 ri re r0 pt rt h1 b1 t1 h2 f1 f2 f3 f4 ef df hp tr].
  simpl in Hr, Hrs. subst r0 rs0.
  destruct r, rs, pt as [pt|], rt as [rt|]; unfold cleanUp, cleanedUp, stopsOf; mrun;
    rewrite <- ?app_assoc; rewrite ?app_nil_r; reflexivity.
Qed.

Lemma cleanStream_live (s : activeStream) (r : UpstreamRequest) (rs : RetryState) :
  upstreamRequest s = Some r → retryState s = Some rs →
  cleanStream s = Ok tt (cleanedStream s r rs).
Proof.
  intros Hr Hrs.
  unfold cleanStream. rewrite !bind_emit. unfold bind at 1. unfold gets at 1.
  destruct s as [p ro cl ti rs0 ri re r0 pt rt h1 b1 t1 h2 f1 f2 f3 f4 ef df hp tr].
  simpl in Hr, Hrs. subst r0 rs0. mrun.
  lazymatch goal with
  | |- context [cleanUp ?s1] => rewrite (cleanUp_live s1 r rs eq_refl eq_refl)
  end.
  unfold cleanedUp. mrun.
  rewrite (forEach_emits _ EncoderFilterDestroy) by (intros ? []; reflexivity). mrun.
  rewrite (forEach_emits _ DecoderFilterDestroy) by (intros ? []; reflexivity). mrun.
  lazymatch goal with
  | |- context [forEach _ _ ?s1] =>
      rewrite (forEach_emits _ (λ al, AccessLog al (downstreamReqHeaders s1)
                                        (downstreamRespHeaders s1) (requestInfo s1)))
        by (intros ? []; reflexivity)
  end.
  unfold cleanedStream, teardownCalls. mrun.
  rewrite <- !app_assoc. reflexivity.
Qed.

(** The calls of a downstream reset made by the proxy itself. *)
Lemma endStream_live (K : TypesConsts) (s : activeStream) (r : UpstreamRequest)
  (rs : RetryState) :
  upstreamRequest s = Some r → retryState s = Some rs →
  endStream K s
  = Ok tt (if abnormalEnd s
           then cleanedStream
                  (set_trace (trace s ++ [DownResetStream (StreamLocalReset K);
                                          StatDownstreamRequestReset;
                                          StatDownstreamRequestReset])
                     (set_localProcessDone true s)) r rs
           else cleanedStream s r rs).
Proof.
  intros Hr Hrs. destruct (abnormalEnd s) eqn:E.
  - rewrite (endStream_abnormal K s E).
    unfold responseEncoder_ResetStream, OnResetStream. rewrite !bind_emit.
    rewrite (cleanStream_live _ r rs) by (destruct s; exact Hr || exact Hrs).
    f_equal. destruct s; unfold cleanedStream, teardownCalls; mrun.
    rewrite <- !app_assoc. reflexivity.
  - rewrite (endStream_normal K s E). apply cleanStream_live; assumption.
Qed.

(** X1.  On a stream with an upstream request and a retry state,
    [cleanStream] returns and releases everything once, in a fixed order:
    counters, upstream reset, armed timers, encoder filters and then
    decoder filters in forward order, access logs, removal from the
    active set.  Afterwards both timer handles are nil, the encoder of the
    upstream request is released and no back-off is pending. *)
Theorem X1_cleanStream_live (s : activeStream) (r : UpstreamRequest) (rs : RetryState) :
  upstreamRequest s = Some r → retryState s = Some rs →
  cleanStream s = Ok tt (cleanedStream s r rs)
  ∧ emitted s (cleanStream s) = teardownCalls s r
  ∧ perRetryTimer (cleanedStream s r rs) = None
  ∧ responseTimer (cleanedStream s r rs) = None
  ∧ upstreamRequest (cleanedStream s r rs) = Some (set_requestEncoder None r)
  ∧ backOffPending <$> retryState (cleanedStream s r rs) = Some false.
Proof.
  intros Hr Hrs. pose proof (cleanStream_live s r rs Hr Hrs) as E.
  split; [exact E|]. split.
  - rewrite E. apply emitted_app. destruct s; reflexivity.
  - destruct s, rs; repeat split; reflexivity.
Qed.

Lemma X1_cleanStream_live_witness :
  let s := final (OnDecodeHeaders Ex.consts Ex.reqHeaders true Ex.fresh) in
  cleanStream s = Ok tt (cleanedStream s Ex.attempt Ex.retry0)
  ∧ emitted s (cleanStream s) = teardownCalls s Ex.attempt
  ∧ perRetryTimer (cleanedStream s Ex.attempt Ex.retry0) = None
  ∧ responseTimer (cleanedStream s Ex.attempt Ex.retry0) = None
  ∧ upstreamRequest (cleanedStream s Ex.attempt Ex.retry0)
    = Some (set_requestEncoder None Ex.attempt)
  ∧ backOffPending <$> retryState (cleanedStream s Ex.attempt Ex.retry0) = Some false.
Proof. apply X1_cleanStream_live; reflexivity. Defined.

(** ** Hijack replies on a live stream *)


(** ** Upstream resets and timer fires before the response has started *)


Ltac norm_trace :=
  unfold hijacked, cleanedStream, cleanedUp, teardownCalls, replyCalls, timeoutStats,
    stopsOf, emitted;
  mrun; cbn [app]; rewrite <- ?app_assoc; cbn [app].








(** ** Failures after the response has started *)





(** ** Response headers and the retry gate *)

(** X6.  The upstream answers, the retry gate asks for a retry and the
    request was sent.  [onUpstreamHeaders] returns without touching the
    downstream: the only call is the reset of the upstream request when
    its stream has not ended, the response is not marked as started, the
    upstream request is given up and both timers stay armed.  The headers
    of the abandoned response stay recorded as the response headers of
    the stream. *)
Theorem X6_onUpstreamHeaders_retry (K : TypesConsts)
  (headers : option (gmap string string)) (endStream_ : bool) (s : activeStream)
  (r : UpstreamRequest) (rs : RetryState) :
  let o := onUpstreamHeaders K headers endStream_ s in
  upstreamRequest s = Some r →
  retryState s = Some rs →
  upstreamRequestSent s = true →
  fst (retry rs headers "") = ShouldRetry →
  returned o = true
  ∧ emitted s o = (if endStream_ then [] else [UpResetStream r])
  ∧ downstreamResponseStarted (final o) = downstreamResponseStarted s
  ∧ localProcessDone (final o) = localProcessDone s
  ∧ upstreamRequest (final o) = None
  ∧ retryState (final o) = Some (snd (retry rs headers ""))
  ∧ perRetryTimer (final o) = perRetryTimer s
  ∧ responseTimer (final o) = responseTimer s
  ∧ downstreamRespHeaders (final o) = headers.
Proof.
  intros o Hr Hrs Hsent Hv. subst o.
  destruct s as [p ro cl ti rs0 ri re r0 pt rt h1 b1 t1 h2 f1 f2 f3 f4 ef df hp tr].
  simpl in Hr, Hrs, Hsent. subst r0 rs0 f2.
  destruct (retry rs headers "") as [v rs'] eqn:E. simpl in Hv. subst v.
  unfold onUpstreamHeaders, setupRetry, emitted.
  destruct endStream_; mrun; rewrite E; mrun;
    rewrite ?drop_app_length, ?drop_all; repeat split; reflexivity.
Qed.

Lemma X6_onUpstreamHeaders_retry_witness :
  returned (onUpstreamHeaders Ex.consts Ex.resp503 false sentStream) = true
  ∧ emitted sentStream (onUpstreamHeaders Ex.consts Ex.resp503 false sentStream)
    = [UpResetStream Ex.attempt]
  ∧ downstreamResponseStarted
      (final (onUpstreamHeaders Ex.consts Ex.resp503 false sentStream)) = false.
Proof.
  destruct (X6_onUpstreamHeaders_retry Ex.consts Ex.resp503 false sentStream
              Ex.attempt Ex.retry0 eq_refl eq_refl eq_refl eq_refl) as (A & B & C & _).
  split; [exact A|]. split; [exact B|exact C].
Defined.



Ltac norm_trace2 :=
  unfold resetCalls, finishCalls; norm_trace.

Ltac use_cleanUp_live r rs :=
  lazymatch goal with
  | |- context [cleanUp ?s1] => rewrite (cleanUp_live s1 r rs eq_refl eq_refl)
  end; unfold cleanedUp; mrun.

Ltac use_endStream_live K r rs :=
  lazymatch goal with
  | |- context [endStream K ?s1] => rewrite (endStream_live K s1 r rs eq_refl eq_refl)
  end; unfold abnormalEnd; mrun.

(** X8.  The upstream answers and the retry gate does not ask for a
    retry (its verdict is [NoRetry] or [RetryOverflow]), on a stream that
    can be answered.  The response is marked as started, the back-off is
    cleared, the overflow flag is set exactly on [RetryOverflow], and the
    headers go downstream with the [endStream] they came with.  When
    more is to come they are the only call and [localProcessDone] is
    cleared.  When they end the response, the upstream request is reset
    if the request was not sent to its end, the armed timers are stopped
    before the headers go downstream, the downstream stream is reset if
    the request was not received to its end, and the stream is released. *)
Theorem X8_onUpstreamHeaders_forward (K : TypesConsts)
  (headers : option (gmap string string)) (endStream_ : bool) (s : activeStream)
  (r : UpstreamRequest) (rs : RetryState) :
  let o := onUpstreamHeaders K headers endStream_ s in
  let v := fst (retry rs headers "") in
  live s r rs →
  v ≠ ShouldRetry →
  encoderFiltersPass s headers endStream_ →
  returned o = true
  ∧ downstreamResponseStarted (final o) = true
  ∧ downstreamRespHeaders (final o) = headers
  ∧ retryState (final o) = Some (retryState_reset (snd (retry rs headers "")))
  ∧ ResponseFlags (requestInfo (final o))
    = match v with
      | RetryOverflow => Z.lor (ResponseFlags (requestInfo s)) (UpstreamOverflow K)
      | _ => ResponseFlags (requestInfo s)
      end
  ∧ localProcessDone (final o) = endStream_
  ∧ emitted s o
    = if endStream_ then
        finishCalls s r ++ [DownEncodeHeaders headers true] ++ resetCalls K s
        ++ teardownCalls (final o) (set_requestEncoder None r)
      else [DownEncodeHeaders headers false].
Proof.
  intros o v (Hr & Hrs & He) Hv Hp. subst o v.
  destruct s as [p ro cl ti rs0 ri re r0 pt rt h1 b1 t1 h2 f1 f2 f3 f4 ef df hp tr].
  unfold encoderFiltersPass in Hp. simpl in Hr, Hrs, He, Hp. subst r0 rs0.
  destruct re as [e|]; [clear He|discriminate He].
  destruct (retry rs headers "") as [v rs'] eqn:E. simpl in Hv.
  unfold onUpstreamHeaders, setupRetry, onUpstreamResponseRecvFinished, encodeHeaders,
    doEncodeHeaders, encodeHeaderFilters.
  destruct v; [contradiction| |]; destruct endStream_; mrun; rewrite E; mrun.
  all: try (rewrite Hp; mrun; unfold emitted; mrun; rewrite drop_app_length;
            repeat split; reflexivity).
  all: destruct f2; mrun; use_cleanUp_live r (retryState_reset rs'); rewrite Hp; mrun;
       use_endStream_live K (set_requestEncoder None r) (retryState_reset rs');
       destruct f3; mrun; (repeat (split; [reflexivity|]));
       norm_trace2; rewrite drop_app_length; destruct pt, rt; reflexivity.
Qed.

Lemma X8_onUpstreamHeaders_forward_witness :
  live sentStream Ex.attempt Ex.retry0
  ∧ returned (onUpstreamHeaders Ex.consts Ex.resp200 true sentStream) = true
  ∧ downstreamResponseStarted (final (onUpstreamHeaders Ex.consts Ex.resp200 true sentStream))
    = true
  ∧ localProcessDone (final (onUpstreamHeaders Ex.consts Ex.resp200 true sentStream)) = true.
Proof.
  assert (Hl : live sentStream Ex.attempt Ex.retry0) by (repeat split; reflexivity).
  destruct (X8_onUpstreamHeaders_forward Ex.consts Ex.resp200 true sentStream
              Ex.attempt Ex.retry0 Hl) as (A & B & _ & _ & _ & C & _);
    [discriminate|reflexivity|].
  split; [exact Hl|]. split; [exact A|]. split; [exact B|exact C].
Defined.

(** ** Response data and trailers *)

(** X9.  Response data from the upstream, on a stream that can be
    answered and whose encoder filters let the data through.  The bytes
    sent grow by the length of the buffer (modulo 2^64) and the buffer
    itself goes downstream with the [endStream] it came with.  When more
    is to come this is the only call.  When the data ends the response,
    the upstream request is reset if the request was not sent to its end
    and the armed timers are stopped before the data goes downstream;
    then the downstream stream is reset if the request was not received
    to its end, and the stream is released, the access logs seeing the
    new byte count. *)
Theorem X9_onUpstreamData (K : TypesConsts) (data : nat) (endStream_ : bool)
  (s : activeStream) (r : UpstreamRequest) (rs : RetryState) :
  let o := onUpstreamData K data endStream_ s in
  live s r rs →
  runFilters None (encoderFilters s) (λ f, onData f data endStream_) = false →
  returned o = true
  ∧ BytesSent (requestInfo (final o))
    = uint64_add (BytesSent (requestInfo s))
        (Z.of_nat (length (bufContent (heap s) data)))
  ∧ localProcessDone (final o) = endStream_
  ∧ emitted s o
    = if endStream_ then
        finishCalls s r
        ++ [DownEncodeData data (bufContent (heap s) data) true] ++ resetCalls K s
        ++ teardownCalls (final o) (set_requestEncoder None r)
      else [DownEncodeData data (bufContent (heap s) data) false].
Proof.
  intros o (Hr & Hrs & He) Hp. subst o.
  destruct s as [p ro cl ti rs0 ri re r0 pt rt h1 b1 t1 h2 f1 f2 f3 f4 ef df hp tr].
  simpl in Hr, Hrs, He, Hp. subst r0 rs0.
  destruct re as [e|]; [clear He|discriminate He].
  unfold onUpstreamData, onUpstreamResponseRecvFinished, encodeData, doEncodeData,
    encodeDataFilters, bufLen.
  destruct endStream_; mrun.
  - destruct f2; mrun; use_cleanUp_live r rs; rewrite Hp; mrun;
      use_endStream_live K (set_requestEncoder None r) (retryState_reset rs);
      destruct f3; mrun; (repeat (split; [reflexivity|]));
      norm_trace2; rewrite drop_app_length; destruct pt, rt; reflexivity.
  - rewrite Hp. mrun. unfold emitted. mrun. rewrite drop_app_length.
    repeat split; reflexivity.
Qed.

Lemma X9_onUpstreamData_witness :
  live (set_heap [[Byte.x4f; Byte.x4b]] startedStream) Ex.attempt Ex.retry0
  ∧ returned (onUpstreamData Ex.consts 0 true (set_heap [[Byte.x4f; Byte.x4b]] startedStream))
    = true
  ∧ BytesSent (requestInfo (final (onUpstreamData Ex.consts 0 true
                                     (set_heap [[Byte.x4f; Byte.x4b]] startedStream))))
    = 2%Z.
Proof.
  assert (Hl : live (set_heap [[Byte.x4f; Byte.x4b]] startedStream) Ex.attempt Ex.retry0)
    by (repeat split; reflexivity).
  destruct (X9_onUpstreamData Ex.consts 0 true _ Ex.attempt Ex.retry0 Hl eq_refl)
    as (A & B & _).
  split; [exact Hl|]. split; [exact A|]. rewrite B. reflexivity.
Defined.

(** X10.  Response trailers from the upstream, on a stream that can be
    answered and whose encoder filters let them through: they always end
    the response.  The upstream request is reset if the request was not
    sent to its end, the armed timers are stopped, the trailers go
    downstream, the downstream stream is reset if the request was not
    received to its end, and the stream is released. *)
Theorem X10_onUpstreamTrailers (K : TypesConsts) (trailers : gmap string string)
  (s : activeStream) (r : UpstreamRequest) (rs : RetryState) :
  let o := onUpstreamTrailers K trailers s in
  live s r rs →
  runFilters None (encoderFilters s) (λ f, onTrailers f trailers) = false →
  returned o = true
  ∧ localProcessDone (final o) = true
  ∧ perRetryTimer (final o) = None
  ∧ responseTimer (final o) = None
  ∧ emitted s o
    = finishCalls s r ++ [DownEncodeTrailers trailers] ++ resetCalls K s
      ++ teardownCalls (final o) (set_requestEncoder None r).
Proof.
  intros o (Hr & Hrs & He) Hp. subst o.
  destruct s as [p ro cl ti rs0 ri re r0 pt rt h1 b1 t1 h2 f1 f2 f3 f4 ef df hp tr].
  simpl in Hr, Hrs, He, Hp. subst r0 rs0.
  destruct re as [e|]; [clear He|discriminate He].
  unfold onUpstreamTrailers, onUpstreamResponseRecvFinished, encodeTrailers,
    doEncodeTrailers, encodeTrailersFilters.
  destruct f2; mrun; use_cleanUp_live r rs; rewrite Hp; mrun;
    use_endStream_live K (set_requestEncoder None r) (retryState_reset rs);
    destruct f3; mrun; (repeat (split; [reflexivity|]));
    norm_trace2; rewrite drop_app_length; destruct pt, rt; reflexivity.
Qed.

Lemma X10_onUpstreamTrailers_witness :
  live startedStream Ex.attempt Ex.retry0
  ∧ returned (onUpstreamTrailers Ex.consts ∅ startedStream) = true
  ∧ localProcessDone (final (onUpstreamTrailers Ex.consts ∅ startedStream)) = true.
Proof.
  assert (Hl : live startedStream Ex.attempt Ex.retry0) by (repeat split; reflexivity).
  destruct (X10_onUpstreamTrailers Ex.consts ∅ startedStream Ex.attempt Ex.retry0 Hl
              eq_refl) as (A & B & _).
  split; [exact Hl|]. split; [exact A|exact B].
Defined.

(** ** Decoding the request headers *)

Lemma cleanUp_reply : framed replyFrame cleanUp.
Proof.
  intros s.
  destruct s as [p ro cl ti rs ri re r pt rt h1 b1 t1 h2 f1 f2 f3 f4 ef df hp tr].
  destruct r as [[cp enc ho]|], rs as [[ron pol rem ovf bop]|], pt as [pt|], rt as [rt|];
    unfold framed, cleanUp, replyFrame, replyKeeps; mrun;
    rewrite <- ?app_assoc;
    (eexists; split; [reflexivity|]) || (exists []; split; [symmetry; apply app_nil_r|]);
    repeat (split; [reflexivity|]); reflexivity.
Qed.

Lemma sendHijackReply_reply (K : TypesConsts) code headers :
  framed replyFrame (sendHijackReply K code headers).
Proof.
  rewrite sendHijackReply_headers.
  unfold encodeHeaders, doEncodeHeaders, encodeHeaderFilters, endStream,
    responseEncoder_ResetStream, OnResetStream, cleanStream,
    upstreamRequest_resetStream.
  frame; apply cleanUp_reply.
Qed.



(** ** Arming the timers *)

Lemma multiplication_in_range (y : Z) :
  (0 < y ≤ 9223372036)%Z → wrap_int64 (y * Second) = (y * 1000000000)%Z.
Proof.
  intros H. unfold wrap_int64, Second.
  rewrite Z.mod_small by lia. lia.
Qed.

(** X12.  [onUpstreamRequestSent] always marks the request as sent.
    Without an upstream request it does nothing else, whatever the
    timeout, nil included.  With an upstream request and a timeout it
    arms the per-try timer when the per-try bound is positive and the
    global timer when the global bound is positive, each after stopping
    the timer its handle held, and leaves a handle alone when its bound
    is not positive.  The per-try bound counts seconds: from 1 to
    9223372036 the timer runs for that many seconds exactly, and at
    9223372037 the signed 64-bit product wraps to a negative duration;
    the global bound is used as it is. *)
Theorem X12_onUpstreamRequestSent (s : activeStream) :
  let o := onUpstreamRequestSent s in
  upstreamRequestSent (final o) = true
  ∧ match upstreamRequest s, timeout s with
    | None, _ => o = Ok tt (set_upstreamRequestSent true s)
    | Some _, None => returned o = false ∧ emitted s o = []
    | Some _, Some t =>
        returned o = true
        ∧ emitted s o = armCalls s t
        ∧ perRetryTimer (final o)
          = (if (0 <? TryTimeout t)%Z then Some (perTryTimerOf t) else perRetryTimer s)
        ∧ responseTimer (final o)
          = (if (0 <? GlobalTimeout t)%Z then Some (globalTimerOf t) else responseTimer s)
        ∧ ((0 < TryTimeout t ≤ 9223372036)%Z →
           duration (perTryTimerOf t) = (TryTimeout t * 1000000000)%Z)
    end
  ∧ duration (perTryTimerOf (mkProxyTimeout 0 9223372037)) = (-9223372036709551616)%Z.
Proof.
  intros o. subst o.
  destruct s as [p ro cl ti rs ri re r pt rt h1 b1 t1 h2 f1 f2 f3 f4 ef df hp tr].
  split; [|split; [|reflexivity]].
  - unfold onUpstreamRequestSent, setupPerTryTimeout.
    destruct r, ti as [[g y]|]; mrun; try reflexivity.
    destruct (0 <? y)%Z, pt, (0 <? g)%Z, rt; reflexivity.
  - unfold onUpstreamRequestSent, setupPerTryTimeout, armCalls, perTryArmCalls, emitted.
    destruct r as [r|]; [|reflexivity].
    destruct ti as [[g y]|]; mrun.
    + destruct (0 <? y)%Z eqn:Ey, pt, (0 <? g)%Z eqn:Eg, rt; mrun;
        unfold stopsOf; cbn [app]; rewrite <- ?app_assoc; cbn [app];
        rewrite ?drop_app_length, ?drop_all;
        (repeat (split; [reflexivity|]));
        intros H; apply (multiplication_in_range y H) || (exfalso; lia).
    + rewrite drop_all. split; reflexivity.
Qed.

(** X13.  Request headers that the decode filters let through, for which
    the router has a rule, the cluster manager a snapshot of the rule's
    cluster, and the cluster a pool for the configured protocol.  The
    stream records the headers, the route, the rule as route entry and
    the cluster; takes its timeout and its retry state from the rule and
    the headers; creates the upstream request on the pool; and encodes
    the headers towards the upstream with the [endStream] they came
    with.  Only when they end the request is the request marked as sent
    and the timers armed, after the encode.  No response flag is set and
    nothing goes downstream. *)
Theorem X13_OnDecodeHeaders_dispatch (K : TypesConsts)
  (headers : option (gmap string string)) (endStream_ : bool) (s : activeStream)
  (rule : RouteRule) (ci : ClusterInfo) (pool : ConnectionPool) :
  let o := OnDecodeHeaders K headers endStream_ s in
  let r := {| connPool := pool; requestEncoder := Some (poolId pool);
              host := poolHost pool |} in
  let t := parseProxyTimeout rule headers in
  runFilters None (decoderFilters s) (λ f, onHeaders f headers endStream_) = false →
  routers (proxy s) headers = Some (mkRoute (Some rule)) →
  clusterManagerGet (proxy s) (ClusterName rule) = Some ci →
  connPoolForProtocol K (proxy s) (ClusterName rule) = Some pool →
  returned o = true
  ∧ downstreamReqHeaders (final o) = headers
  ∧ downstreamRecvDone (final o) = endStream_
  ∧ route (final o) = Some (mkRoute (Some rule))
  ∧ RouteEntry (requestInfo (final o)) = Some rule
  ∧ ResponseFlags (requestInfo (final o)) = ResponseFlags (requestInfo s)
  ∧ cluster (final o) = Some ci
  ∧ timeout (final o) = Some t
  ∧ retryState (final o) = Some (newRetryState rule headers (Some ci))
  ∧ upstreamRequest (final o) = Some r
  ∧ upstreamRequestSent (final o) = endStream_ || upstreamRequestSent s
  ∧ emitted s o
    = UpEncodeHeaders r headers endStream_ :: (if endStream_ then armCalls s t else []).
Proof.
  intros o r t Hf Hro Hg Hp. subst o r t.
  destruct s as [p ro cl ti rs ri re r pt rt h1 b1 t1 h2 f1 f2 f3 f4 ef df hp tr].
  simpl in Hf, Hro, Hg, Hp.
  unfold OnDecodeHeaders, doDecodeHeaders, decodeHeaderFilters,
    initializeUpstreamConnectionPool, armCalls, perTryArmCalls, emitted.
  mrun. rewrite Hf, Hro. mrun. rewrite Hg. mrun. rewrite Hp.
  destruct (parseProxyTimeout rule headers) as [g y] eqn:Et.
  destruct endStream_; mrun_all; rewrite ?Et; mrun.
  - destruct (0 <? y)%Z, pt, (0 <? g)%Z, rt; mrun; rewrite ?Et;
      unfold stopsOf, perTryTimerOf, globalTimerOf; cbn [app TryTimeout GlobalTimeout];
      rewrite <- ?app_assoc; cbn [app]; rewrite drop_app_length;
      repeat split; reflexivity.
  - rewrite drop_app_length. destruct f2; repeat split; reflexivity.
Qed.

Lemma X13_OnDecodeHeaders_dispatch_witness :
  returned (OnDecodeHeaders Ex.consts Ex.reqHeaders true Ex.fresh) = true
  ∧ upstreamRequest (final (OnDecodeHeaders Ex.consts Ex.reqHeaders true Ex.fresh))
    = Some Ex.attempt
  ∧ emitted Ex.fresh (OnDecodeHeaders Ex.consts Ex.reqHeaders true Ex.fresh)
    = [UpEncodeHeaders Ex.attempt Ex.reqHeaders true; TimerStart Ex.perTryTimer;
       TimerStart Ex.globalTimer].
Proof.
  destruct (X13_OnDecodeHeaders_dispatch Ex.consts Ex.reqHeaders true Ex.fresh Ex.rule
              (mkClusterInfo "server_1") Ex.pool eq_refl eq_refl eq_refl eq_refl)
    as (A & _ & _ & _ & _ & _ & _ & _ & _ & B & _ & C).
  split; [exact A|]. split; [exact B|]. rewrite C. reflexivity.
Defined.

(** ** Acquiring a pool *)

(** X14.  [initializeUpstreamConnectionPool] for a cluster name.  When
    the cluster manager has no snapshot, the no-route flag is set, the
    reply is a hijack with [RouterUnavailableCode] on the request headers
    of the stream, the cluster of the stream is left as it was, and the
    call gives no pool.  When the cluster is known the stream takes its
    cluster info; then, with no pool for the configured protocol, the
    no-healthy-upstream flag is set, the reply is a hijack with
    [NoHealthUpstreamCode] and the call gives no pool; with a pool, the
    pool is returned and nothing is called.  A protocol that is neither
    the RPC family nor HTTP/1 gets the HTTP/2 pool. *)
Theorem X14_initializeUpstreamConnectionPool (K : TypesConsts) (name : string)
  (s : activeStream) :
  let o := initializeUpstreamConnectionPool K name s in
  let failed (flag code : Z) (c : option ClusterInfo) :=
    ResponseFlags (requestInfo (final o)) = Z.lor (ResponseFlags (requestInfo s)) flag
    ∧ cluster (final o) = c
    ∧ forallb isLocalReply (emitted s o) = true
    ∧ match o with
      | Ok v _ => v = None
      | Panic _ => True
      end
    ∧ (is_nil (responseEncoder s) = false →
       encoderFiltersPass s (Some (hijackHeaders K code (downstreamReqHeaders s))) true →
       head (emitted s o)
       = Some (DownEncodeHeaders (Some (hijackHeaders K code (downstreamReqHeaders s)))
                 true)) in
  match clusterManagerGet (proxy s) name with
  | None => failed (NoRouteFound K) (RouterUnavailableCode K) (cluster s)
  | Some ci =>
      match connPoolForProtocol K (proxy s) name with
      | None => failed (NoHealthyUpstream K) (NoHealthUpstreamCode K) (Some ci)
      | Some pool => o = Ok (Some pool) (set_cluster (Some ci) s)
      end
  end
  ∧ (UpstreamProtocol (proxy s) ≠ SofaRpc K →
     UpstreamProtocol (proxy s) ≠ Http1 K →
     connPoolForProtocol K (proxy s) name
     = HttpConnPoolForCluster (proxy s) name (Http2 K)).
Proof.
  intros o failed. subst o failed.
  destruct s as [p ro cl ti rs ri re r pt rt h1 b1 t1 h2 f1 f2 f3 f4 ef df hp tr].
  split.
  - unfold initializeUpstreamConnectionPool. mrun.
    destruct (clusterManagerGet p name) as [ci|]; mrun;
      [destruct (connPoolForProtocol K p name) as [pool|]; mrun; [reflexivity|]|];
      lazymatch goal with
      | |- context [sendHijackReply K ?c ?h ?s1] =>
          destruct (sendHijackReply_reply K c h s1)
            as (l & Et & P & (K1 & K2 & K3 & K4 & K5 & K6 & K7));
          pose proof (sendHijackReply_emits K c h s1) as Hd;
          destruct (sendHijackReply K c h s1) as [[] s2|s2]
      end; destruct s2; unfold emitted in *; simpl in *; mrun; subst;
      (split; [reflexivity|]); (split; [reflexivity|]);
      (split; [rewrite drop_app_length; exact P|]);
      (split; [reflexivity || exact I|]);
      intros He Hp; destruct (Hd Hp He) as (l' & El'); rewrite El'; reflexivity.
  - simpl. intros H1 H2. unfold connPoolForProtocol. simpl.
    rewrite decide_False by exact H1. case_decide; [reflexivity|].
    rewrite decide_False by exact H2. reflexivity.
Qed.

(** ** Bytes received *)

Lemma doDecodeData_info (from : option nat) (data : nat) (endStream_ : bool) :
  framed infoFrame (doDecodeData from data endStream_).
Proof.
  unfold doDecodeData, onUpstreamRequestSent, setupPerTryTimeout, bufClone, NewIoBuffer,
    bufReadFrom, upstreamRequest_encodeData, decodeDataFilters, timer_stop, timer_start.
  cbv zeta. frame.
Qed.

(** X15.  [OnDecodeData] counts the bytes of every data buffer it is
    given, before anything else: whether the buffer is then dropped, held
    back by a filter or forwarded, and whether the forward returns or
    faults, the bytes received grow by the length of the buffer, modulo
    2^64, and the bytes sent are untouched.  A decode resumed by a filter
    counts nothing. *)
Theorem X15_OnDecodeData_bytes (from : option nat) (data : nat) (endStream_ : bool)
  (s : activeStream) :
  BytesReceived (requestInfo (final (OnDecodeData data endStream_ s)))
  = uint64_add (BytesReceived (requestInfo s))
      (Z.of_nat (length (bufContent (heap s) data)))
  ∧ BytesSent (requestInfo (final (OnDecodeData data endStream_ s)))
    = BytesSent (requestInfo s)
  ∧ requestInfo (final (doDecodeData from data endStream_ s)) = requestInfo s.
Proof.
  split; [|split].
  - unfold OnDecodeData, bufLen.
    destruct s as [p ro cl ti rs ri re r pt rt h1 b1 t1 h2 f1 f2 f3 f4 ef df hp tr]. mrun.
    lazymatch goal with
    | |- context [doDecodeData ?f ?d ?e ?s1] =>
        destruct (doDecodeData_info f d e s1) as (l & _ & _ & Hk);
        destruct (doDecodeData f d e s1) as [[] [] | []]
    end; simpl in Hk; unfold infoKept in Hk; simpl in Hk; subst; reflexivity.
  - unfold OnDecodeData, bufLen.
    destruct s as [p ro cl ti rs ri re r pt rt h1 b1 t1 h2 f1 f2 f3 f4 ef df hp tr]. mrun.
    lazymatch goal with
    | |- context [doDecodeData ?f ?d ?e ?s1] =>
        destruct (doDecodeData_info f d e s1) as (l & _ & _ & Hk);
        destruct (doDecodeData f d e s1) as [[] [] | []]
    end; simpl in Hk; unfold infoKept in Hk; simpl in Hk; subst; reflexivity.
  - destruct (doDecodeData_info from data endStream_ s) as (l & _ & _ & Hk). exact Hk.
Qed.

(** ** A new attempt *)

(** X16.  [doRetry] on a stream that gets its pool and has a timeout.
    A new upstream request is created on the pool and becomes the one of
    the stream.  The request headers are encoded first; then the buffered
    body, if any, from a clone, ending the request when there are no
    trailers; then the trailers, if any; and last the per-try timer is
    armed again (when its bound is positive), the one held before being
    stopped.  The headers are encoded with [endStream] set exactly when
    there are both a buffered body and trailers.  The global timer is
    neither stopped nor started, and the stream keeps the buffer it had
    retained. *)
Theorem X16_doRetry (K : TypesConsts) (s : activeStream) (pool : ConnectionPool)
  (t : ProxyTimeout) :
  let o := doRetry K s in
  let r := {| connPool := pool; requestEncoder := Some (poolId pool);
              host := poolHost pool |} in
  poolAcquired K s pool →
  timeout s = Some t →
  returned o = true
  ∧ upstreamRequest (final o) = Some r
  ∧ emitted s o
    = [UpEncodeHeaders r (downstreamReqHeaders s)
         (negb (is_nil (downstreamReqDataBuf s)) && negb (is_nil (downstreamReqTrailers s)))]
      ++ retryBodyCalls s r ++ perTryArmCalls s t
  ∧ responseTimer (final o) = responseTimer s
  ∧ upstreamRequestSent (final o) = upstreamRequestSent s
  ∧ downstreamResponseStarted (final o) = downstreamResponseStarted s
  ∧ downstreamReqDataBuf (final o) = downstreamReqDataBuf s
  ∧ retryState (final o) = retryState s.
Proof.
  intros o r (c & ci & Hc & Hg & Hp) Ht. subst o r.
  destruct s as [p ro cl ti rs ri re r pt rt h1 b1 t1 h2 f1 f2 f3 f4 ef df hp tr].
  simpl in Hc, Hg, Hp, Ht. subst cl ti. destruct t as [g y].
  unfold emitted, doRetry, initializeUpstreamConnectionPool, retryBodyCalls,
    perTryArmCalls, perTryTimerOf. mrun.
  rewrite Hg. mrun. rewrite Hp. mrun_all.
  destruct b1 as [b|], t1 as [t|], pt as [pt|], (0 <? y)%Z; mrun;
    unfold stopsOf; cbn [app]; rewrite <- ?app_assoc; cbn [app];
    rewrite drop_app_length; rewrite ?bufContent_app_length;
    repeat split; reflexivity.
Qed.

Lemma X16_doRetry_witness :
  let s := final (onUpstreamHeaders Ex.consts Ex.resp503 true sentStream) in
  upstreamRequest s = None
  ∧ returned (doRetry Ex.consts s) = true
  ∧ upstreamRequest (final (doRetry Ex.consts s)) = Some Ex.attempt
  ∧ responseTimer (final (doRetry Ex.consts s)) = Some Ex.globalTimer.
Proof.
  assert (Hp : poolAcquired Ex.consts
                 (final (onUpstreamHeaders Ex.consts Ex.resp503 true sentStream)) Ex.pool).
  { exists (mkClusterInfo "server_1"), (mkClusterInfo "server_1").
    repeat split; reflexivity. }
  destruct (X16_doRetry Ex.consts _ Ex.pool (mkProxyTimeout 5000000000 1) Hp eq_refl)
    as (A & B & _ & C & _).
  split; [reflexivity|]. split; [exact A|]. split; [exact B|]. rewrite C. reflexivity.
Defined.

(** ** Request trailers *)

(** X18.  Request trailers on a stream whose local processing is not
    done, whose decode filters let them through, and which has an
    upstream request and a timeout.  The request is marked as received
    and as sent, the trailers are recorded, both timers are armed, and
    only then are the trailers encoded towards the upstream, as the last
    call. *)
Theorem X18_OnDecodeTrailers (trailers : gmap string string) (s : activeStream)
  (r : UpstreamRequest) (t : ProxyTimeout) :
  let o := OnDecodeTrailers trailers s in
  localProcessDone s = false →
  runFilters None (decoderFilters s) (λ f, onTrailers f trailers) = false →
  upstreamRequest s = Some r →
  timeout s = Some t →
  returned o = true
  ∧ downstreamRecvDone (final o) = true
  ∧ upstreamRequestSent (final o) = true
  ∧ downstreamReqTrailers (final o) = Some trailers
  ∧ upstreamRequest (final o) = Some r
  ∧ emitted s o = armCalls s t ++ [UpEncodeTrailers r trailers].
Proof.
  intros o Hd Hf Hr Ht. subst o.
  destruct s as [p ro cl ti rs ri re r0 pt rt h1 b1 t1 h2 f1 f2 f3 f4 ef df hp tr].
  simpl in Hd, Hf, Hr, Ht. subst f4 r0 ti. destruct t as [g y].
  unfold OnDecodeTrailers, doDecodeTrailers, decodeTrailersFilters, armCalls,
    perTryArmCalls, perTryTimerOf, globalTimerOf, emitted.
  mrun. rewrite Hf. mrun_all.
  destruct pt as [pt|], rt as [rt|], (0 <? y)%Z; mrun; destruct (0 <? g)%Z; mrun;
    unfold stopsOf; cbn [app]; rewrite <- ?app_assoc; cbn [app];
    rewrite drop_app_length; repeat split; reflexivity.
Qed.

Lemma X18_OnDecodeTrailers_witness :
  returned (OnDecodeTrailers ∅ receivingStream) = true
  ∧ emitted receivingStream (OnDecodeTrailers ∅ receivingStream)
    = [TimerStart Ex.perTryTimer; TimerStart Ex.globalTimer;
       UpEncodeTrailers Ex.attempt ∅].
Proof.
  destruct (X18_OnDecodeTrailers ∅ receivingStream Ex.attempt
              (mkProxyTimeout 5000000000 1) eq_refl eq_refl eq_refl eq_refl)
    as (A & _ & _ & _ & _ & B).
  split; [exact A|]. rewrite B. reflexivity.
Defined.

(** ** The headers of a hijack reply *)

(** X17.  The headers that [sendHijackReply] hands to the encode path.
    The status field holds the code in decimal, whatever it held before;
    every other field of the headers it was given is passed on as it is,
    and with nil headers the status is the only field.  Two codes give
    the same status only if they are the same code, and a second reply
    built on the headers of a first one carries the second code only. *)
Theorem X17_hijack_reply_headers (K : TypesConsts) (code code' : Z)
  (headers : option (gmap string string)) :
  sendHijackReply K code headers
  = encodeHeaders K (Some (hijackHeaders K code headers)) true
  ∧ hijackHeaders K code headers !! HeaderStatus K = Some (Itoa code)
  ∧ (∀ k, k ≠ HeaderStatus K →
       hijackHeaders K code headers !! k = default ∅ headers !! k)
  ∧ hijackHeaders K code None = {[HeaderStatus K := Itoa code]}
  ∧ (Itoa code = Itoa code' → code = code')
  ∧ hijackHeaders K code' (Some (hijackHeaders K code headers))
    = hijackHeaders K code' headers.
Proof.
  split; [apply sendHijackReply_headers|].
  split; [apply lookup_insert_eq|].
  split; [intros k Hk; apply lookup_insert_ne; congruence|].
  split; [reflexivity|].
  split; [intros H; exact (pretty_Z_inj _ _ H)|].
  unfold hijackHeaders. simpl. apply insert_insert_eq.
Qed.

(** ** Flow control *)

Lemma wrap_int64_add (x k : Z) : wrap_int64 (wrap_int64 x + k) = wrap_int64 (x + k).
Proof.
  unfold wrap_int64. f_equal.
  replace ((x + 2 ^ 63) mod 2 ^ 64 - 2 ^ 63 + k + 2 ^ 63)%Z
    with ((x + 2 ^ 63) mod 2 ^ 64 + k)%Z by lia.
  rewrite Zplus_mod_idemp_l. f_equal. lia.
Qed.

(** X19.  A sequence of watermark events of the downstream write buffer,
    on a stream whose upstream request holds an encoder.  No event
    faults; the nesting counter ends at its start value plus the number
    of high-watermark events minus the number of low-watermark events
    (in 64-bit arithmetic), going below zero when there are more lows
    than highs; and each event, whatever the counter, disables (high) or
    enables (low) reading on the upstream stream and then calls the
    registered watermark listener, if there is one.  The stream itself is
    untouched. *)
Theorem X19_watermark_events (evs : list watermarkEvent) (f : flowState) (enc : nat) :
  upstreamEncoder f = Some enc →
  ∃ f', onWatermarkEvents evs f = Some f'
        ∧ stream f' = stream f
        ∧ watermarkCallbacks f' = watermarkCallbacks f
        ∧ highWatermarkCount f'
          = (if evs is [] then highWatermarkCount f
             else wrap_int64 (highWatermarkCount f + watermarkSum evs))
        ∧ flowCalls f'
          = flowCalls f ++ flat_map (watermarkCalls enc (watermarkCallbacks f)) evs.
Proof.
  revert f. induction evs as [|ev evs IH]; intros f He.
  - exists f. rewrite app_nil_r. repeat split; reflexivity.
  - assert (Hs : ∃ f1, onWatermarkEvent ev f = Some f1
                       ∧ stream f1 = stream f
                       ∧ watermarkCallbacks f1 = watermarkCallbacks f
                       ∧ highWatermarkCount f1
                         = wrap_int64 (highWatermarkCount f + watermarkWeight ev)
                       ∧ flowCalls f1
                         = flowCalls f ++ watermarkCalls enc (watermarkCallbacks f) ev).
    { destruct ev; simpl;
        unfold OnAboveWriteBufferHighWatermark, OnBelowWriteBufferLowWatermark,
          callHighWatermarkCallbacks, callLowWatermarkCallbacks;
        rewrite He; eexists; repeat split; reflexivity. }
    destruct Hs as (f1 & E1 & S1 & W1 & C1 & L1).
    assert (He1 : upstreamEncoder f1 = Some enc)
      by (unfold upstreamEncoder in *; rewrite S1; exact He).
    destruct (IH f1 He1) as (f2 & E2 & S2 & W2 & C2 & L2).
    exists f2. simpl. rewrite E1.
    split; [exact E2|]. split; [congruence|]. split; [congruence|]. split.
    + rewrite C2, C1. destruct evs as [|ev' evs'].
      * simpl. f_equal. lia.
      * rewrite wrap_int64_add. f_equal. simpl. lia.
    + rewrite L2, L1, W1, <- app_assoc. reflexivity.
Qed.

Lemma X19_watermark_events_witness :
  ∃ f', onWatermarkEvents [AboveHigh; AboveHigh; BelowLow]
          (mkFlow sentStream 0 (Some 5) []) = Some f'
        ∧ highWatermarkCount f' = 1%Z
        ∧ flowCalls f'
          = [UpstreamReadDisable 7 true; WatermarkAbove 5;
             UpstreamReadDisable 7 true; WatermarkAbove 5;
             UpstreamReadDisable 7 false; WatermarkBelow 5].
Proof.
  destruct (X19_watermark_events [AboveHigh; AboveHigh; BelowLow]
              (mkFlow sentStream 0 (Some 5) []) 7 eq_refl) as (f' & E & _ & _ & C & L).
  exists f'. split; [exact E|]. split; [rewrite C; reflexivity|rewrite L; reflexivity].
Defined.

(** X20.  After [cleanUp] has returned, a watermark event of the
    downstream write buffer faults, high or low: [cleanUp] has released
    the encoder of the upstream request, which both callbacks read
    without a test.  They fault as well on a stream without an upstream
    request.  The callbacks of the other direction only need the response
    encoder and go on as before. *)
Theorem X20_watermark_after_cleanUp (f : flowState) (s' : activeStream) :
  cleanUp (stream f) = Ok tt s' →
  OnAboveWriteBufferHighWatermark (set_stream s' f) = None
  ∧ OnBelowWriteBufferLowWatermark (set_stream s' f) = None
  ∧ OnAboveWriteBufferHighWatermark
      (set_stream (set_upstreamRequest None (stream f)) f) = None
  ∧ responseEncoder s' = responseEncoder (stream f)
  ∧ (is_Some (onUpstreamAboveWriteBufferHighWatermark (set_stream s' f))
     ↔ is_Some (onUpstreamAboveWriteBufferHighWatermark f)).
Proof.
  intros H. destruct f as [s c cb l]. simpl in H.
  destruct (upstreamRequest s) as [r|] eqn:Hr;
    [|destruct s; simpl in Hr; subst; revert H; unfold cleanUp; mrun; discriminate].
  destruct (retryState s) as [rs|] eqn:Hrs;
    [|destruct s; simpl in Hr, Hrs; subst; revert H; unfold cleanUp; mrun; discriminate].
  rewrite (cleanUp_live s r rs Hr Hrs) in H. injection H as <-.
  destruct s as [p ro cl ti rs0 ri re r0 pt rt h1 b1 t1 h2 f1 f2 f3 f4 ef df hp tr].
  simpl in Hr, Hrs. subst.
  unfold OnAboveWriteBufferHighWatermark, OnBelowWriteBufferLowWatermark,
    callHighWatermarkCallbacks, callLowWatermarkCallbacks,
    onUpstreamAboveWriteBufferHighWatermark, upstreamEncoder.
  simpl. repeat split; try reflexivity; destruct re; simpl; intros [? ?]; eauto; discriminate.
Qed.

Lemma X20_watermark_after_cleanUp_witness :
  OnAboveWriteBufferHighWatermark
    (set_stream (cleanedUp sentStream Ex.attempt Ex.retry0) (mkFlow sentStream 0 None []))
  = None.
Proof.
  apply (X20_watermark_after_cleanUp (mkFlow sentStream 0 None [])). reflexivity.
Defined.

(** ** Stream objects and their reuse *)

(** X21.  A stream object that went through [reset] and is handed out
    again by [newActiveStream] is the object [newActiveStream] builds
    from nothing, except for one field: it still holds the request
    headers of its previous use, which [reset] never clears
    ([DownstreamHeaders] returns them until the next headers arrive).  So
    the recycled object equals a new one exactly when the previous
    request headers were nil.  [reset] changes nothing when applied a
    second time, and [newActiveStream] faults on a nil response encoder,
    pool or no pool. *)
Theorem X21_reset_newActiveStream (info : RequestInfo) (ctx : Proxy → option nat)
  (st : Pooled.activeStream) (id : string) (p : Proxy) (enc : nat)
  (taken : option Pooled.activeStream) :
  ∃ new calls,
    Pooled.newActiveStream info ctx id (Some p) (Some enc) None = Some (new, calls)
    ∧ Pooled.newActiveStream info ctx id (Some p) (Some enc) (Some (Pooled.reset st))
      = Some (Pooled.set_downstreamReqHeaders (Pooled.downstreamReqHeaders st) new, calls)
    ∧ Pooled.DownstreamHeaders
        (Pooled.set_downstreamReqHeaders (Pooled.downstreamReqHeaders st) new)
      = Pooled.downstreamReqHeaders st
    ∧ (Pooled.set_downstreamReqHeaders (Pooled.downstreamReqHeaders st) new = new
       ↔ Pooled.downstreamReqHeaders st = None)
    ∧ Pooled.reset (Pooled.reset st) = Pooled.reset st
    ∧ Pooled.newActiveStream info ctx id (Some p) None taken = None.
Proof.
  eexists _, _. split; [reflexivity|].
  split; [reflexivity|]. split; [reflexivity|].
  split; [|split; reflexivity].
  unfold Pooled.set_downstreamReqHeaders; simpl. split.
  - intros H. injection H as H. exact H.
  - intros ->. reflexivity.
Qed.

Lemma indexed_snoc (fs : list Pooled.activeStreamFilter) (f : nat) :
  Pooled.indexed fs → Pooled.indexed (fs ++ [(length fs, f)]).
Proof.
  unfold Pooled.indexed. intros H.
  rewrite length_app, Nat.add_1_r, seq_S, <- H, map_app. reflexivity.
Qed.

Lemma registerAll_chains (regs : list Pooled.registration) (s : Pooled.activeStream) :
  Pooled.indexed (Pooled.decoderFilters s) →
  Pooled.indexed (Pooled.encoderFilters s) →
  Pooled.indexed (Pooled.decoderFilters (Pooled.registerAll regs s))
  ∧ Pooled.indexed (Pooled.encoderFilters (Pooled.registerAll regs s))
  ∧ map snd (Pooled.decoderFilters (Pooled.registerAll regs s))
    = map snd (Pooled.decoderFilters s) ++ Pooled.decodersOf regs
  ∧ map snd (Pooled.encoderFilters (Pooled.registerAll regs s))
    = map snd (Pooled.encoderFilters s) ++ Pooled.encodersOf regs
  ∧ Pooled.set_encoderFilters (Pooled.encoderFilters s)
      (Pooled.set_decoderFilters (Pooled.decoderFilters s) (Pooled.registerAll regs s)) = s.
Proof.
  revert s. induction regs as [|reg regs IH]; intros s Hd He.
  - unfold Pooled.registerAll, Pooled.decodersOf, Pooled.encodersOf. simpl.
    rewrite !app_nil_r. destruct s. repeat split; assumption.
  - change (Pooled.registerAll (reg :: regs) s)
      with (Pooled.registerAll regs (Pooled.register s reg)).
    destruct reg as [f|f].
    + destruct (IH (Pooled.AddStreamDecoderFilter f s)) as (I1 & I2 & I3 & I4 & I5).
      * apply indexed_snoc, Hd.
      * exact He.
      * simpl Pooled.register. split; [exact I1|]. split; [exact I2|].
        split; [|split].
        -- rewrite I3. simpl. rewrite map_app, <- app_assoc. reflexivity.
        -- rewrite I4. reflexivity.
        -- destruct (Pooled.registerAll regs (Pooled.AddStreamDecoderFilter f s)).
           destruct s. unfold Pooled.AddStreamDecoderFilter, Pooled.set_decoderFilters,
             Pooled.set_encoderFilters in *. simpl in *.
           injection I5; intros; subst; reflexivity.
    + destruct (IH (Pooled.AddStreamEncoderFilter f s)) as (I1 & I2 & I3 & I4 & I5).
      * exact Hd.
      * apply indexed_snoc, He.
      * simpl Pooled.register. split; [exact I1|]. split; [exact I2|].
        split; [|split].
        -- rewrite I3. reflexivity.
        -- rewrite I4. simpl. rewrite map_app, <- app_assoc. reflexivity.
        -- destruct (Pooled.registerAll regs (Pooled.AddStreamEncoderFilter f s)).
           destruct s. unfold Pooled.AddStreamEncoderFilter, Pooled.set_decoderFilters,
             Pooled.set_encoderFilters in *. simpl in *.
           injection I5; intros; subst; reflexivity.
Qed.

(** X22.  Filters registered on a stream whose chains are indexed by
    position (each wrapper's index is its place in its chain) leave the
    chains indexed by position, in whatever order decoder and encoder
    filters are registered; each chain gains its filters at the end, in
    registration order, and no other field of the stream changes.  The
    chains of a stream that went through [reset] are empty, hence
    indexed. *)
Theorem X22_filter_registration (regs : list Pooled.registration)
  (s : Pooled.activeStream) :
  Pooled.indexed (Pooled.decoderFilters s) →
  Pooled.indexed (Pooled.encoderFilters s) →
  Pooled.indexed (Pooled.decoderFilters (Pooled.registerAll regs s))
  ∧ Pooled.indexed (Pooled.encoderFilters (Pooled.registerAll regs s))
  ∧ map snd (Pooled.decoderFilters (Pooled.registerAll regs s))
    = map snd (Pooled.decoderFilters s) ++ Pooled.decodersOf regs
  ∧ map snd (Pooled.encoderFilters (Pooled.registerAll regs s))
    = map snd (Pooled.encoderFilters s) ++ Pooled.encodersOf regs
  ∧ Pooled.set_encoderFilters (Pooled.encoderFilters s)
      (Pooled.set_decoderFilters (Pooled.decoderFilters s) (Pooled.registerAll regs s)) = s
  ∧ Pooled.indexed (Pooled.decoderFilters (Pooled.reset s))
  ∧ Pooled.indexed (Pooled.encoderFilters (Pooled.reset s)).
Proof.
  intros Hd He.
  destruct (registerAll_chains regs s Hd He) as (I1 & I2 & I3 & I4 & I5).
  repeat split; try assumption; reflexivity.
Qed.

Lemma X22_filter_registration_witness :
  Pooled.decoderFilters
    (Pooled.registerAll [Pooled.Decoder 40; Pooled.Encoder 50; Pooled.Decoder 41]
       Pooled.zero)
  = [(0, 40); (1, 41)].
Proof.
  destruct (X22_filter_registration
              [Pooled.Decoder 40; Pooled.Encoder 50; Pooled.Decoder 41] Pooled.zero
              eq_refl eq_refl) as (_ & _ & H & _).
  reflexivity.
Defined.
